(** * The Datadog downtime resource of the Terraform provider

    A shallow embedding of [datadog/resource_datadog_downtime.go]: the
    schema of the resource, the two helpers that decide which boundary
    (start / end) goes into a request, the request builder, the projection of
    a remote downtime into the local state, and the lifecycle operations
    (create, read, update, delete, import).

    Layout of the file:
    - [Go]: the few functions of Go's standard library the file calls
      ([strconv.ParseInt], [strconv.FormatInt], [strings.TrimSpace],
      [time.Parse] with the RFC3339 layout);
    - [datadogV1]: the API client's [Downtime] struct with its getters and
      setters, and the client's operations;
    - [schema]: the plugin SDK's [ResourceData], as a state the operations
      read and update;
    - the resource itself;
    - [validation]: the [Schema] map of the resource and the SDK's validation
      of a configuration against it;
    - the theorems. *)

From Stdlib Require Import ZArith String Ascii List Lia Bool DecimalString DecimalPos.
From stdpp Require Import base option list gmap strings.

Set Warnings "-register-all".

Local Open Scope string_scope.
Local Open Scope list_scope.
Local Open Scope Z_scope.

(* ===================================================================== *)
(** ** Go's standard library, as far as the resource uses it *)
(* ===================================================================== *)

Module Go.

Definition is_digit (c : ascii) : bool :=
  let n := nat_of_ascii c in ((48 <=? n) && (n <=? 57))%nat.

Definition digit_val (c : ascii) : Z := Z.of_nat (nat_of_ascii c) - 48.

(** Reads a string made of decimal digits only. *)
Fixpoint digits (acc : Z) (s : string) : option Z :=
  match s with
  | EmptyString => Some acc
  | String c t => if is_digit c then digits (10 * acc + digit_val c) t else None
  end.

Definition minInt64 : Z := - 2 ^ 63.
Definition maxInt64 : Z := 2 ^ 63 - 1.

(** [int32(x)] on a Go [int]: the low 32 bits, read as a signed number. *)
Definition int32 (x : Z) : Z := (x + 2 ^ 31) mod 2 ^ 32 - 2 ^ 31.

Module strconv.

(** [strconv.ParseInt(s, 10, 64)]: an optional sign, then at least one
    decimal digit, and the value must fit 64 bits.  [None] stands for the
    returned [*NumError]. *)
Definition ParseInt (s : string) : option Z :=
  let '(neg, body) :=
    match s with
    | String "+"%char t => (false, t)
    | String "-"%char t => (true, t)
    | _ => (false, s)
    end in
  match body with
  | EmptyString => None
  | _ =>
      match digits 0 body with
      | Some n =>
          let v := if neg : bool then - n else n in
          if (minInt64 <=? v) && (v <=? maxInt64) then Some v else None
      | None => None
      end
  end.

(** [strconv.FormatInt(i, 10)] and [strconv.Itoa]. *)
Definition FormatInt (i : Z) : string := NilZero.string_of_int (Z.to_int i).

End strconv.

Module strings.

(** The runes [unicode.IsSpace] accepts, each as the bytes of its UTF-8
    encoding: U+0009 to U+000D and U+0020 (the six of the ASCII range),
    U+0085, U+00A0, U+1680, U+2000 to U+200A, U+2028, U+2029, U+202F, U+205F
    and U+3000. *)
Definition white_space : list (list ascii) :=
  map (map ascii_of_nat)
    [ [9]; [10]; [11]; [12]; [13]; [32];
      [194; 133]; [194; 160];
      [225; 154; 128];
      [226; 128; 128]; [226; 128; 129]; [226; 128; 130]; [226; 128; 131];
      [226; 128; 132]; [226; 128; 133]; [226; 128; 134]; [226; 128; 135];
      [226; 128; 136]; [226; 128; 137]; [226; 128; 138];
      [226; 128; 168]; [226; 128; 169]; [226; 128; 175];
      [226; 129; 159];
      [227; 128; 128] ]%nat.

(** What is left of [l] after its prefix [w]. *)
Fixpoint strip_prefix (w l : list ascii) : option (list ascii) :=
  match w, l with
  | [], _ => Some l
  | a :: w', b :: l' => if Ascii.eqb a b then strip_prefix w' l' else None
  | _ :: _, [] => None
  end.

Fixpoint first_of {A B} (f : A -> option B) (xs : list A) : option B :=
  match xs with
  | [] => None
  | x :: xs' =>
      match f x with
      | Some b => Some b
      | None => first_of f xs'
      end
  end.

(** The bytes after the first rune, when that rune is white space.  Bytes
    that are no valid encoding decode to the replacement rune, which is not
    white space. *)
Definition leading_space (l : list ascii) : option (list ascii) :=
  first_of (λ w, strip_prefix w l) white_space.

(** The bytes before the last rune, when that rune is white space. *)
Definition trailing_space (l : list ascii) : option (list ascii) :=
  reverse <$> first_of (λ w, strip_prefix (reverse w) (reverse l)) white_space.

(** [TrimLeftFunc(s, unicode.IsSpace)]; at most [n] runes are removed. *)
Fixpoint trim_left (n : nat) (l : list ascii) : list ascii :=
  match n with
  | O => l
  | S n' =>
      match leading_space l with
      | Some rest => trim_left n' rest
      | None => l
      end
  end.

(** [TrimRightFunc(s, unicode.IsSpace)]; at most [n] runes are removed. *)
Fixpoint trim_right (n : nat) (l : list ascii) : list ascii :=
  match n with
  | O => l
  | S n' =>
      match trailing_space l with
      | Some rest => trim_right n' rest
      | None => l
      end
  end.

(** [strings.TrimSpace]: the string without its leading and trailing white
    space, as Unicode defines it.  A string has no more runes than bytes,
    so its length bounds the number of runes to remove. *)
Definition TrimSpace (s : string) : string :=
  let l := list_ascii_of_string s in
  let l := trim_left (length l) l in
  string_of_list_ascii (trim_right (length l) l).

End strings.

Module time.

(** Reads exactly [n] decimal digits at the head of [s]. *)
Fixpoint fixed_digits (n : nat) (acc : Z) (s : string) : option (Z * string) :=
  match n with
  | O => Some (acc, s)
  | S n' =>
      match s with
      | String c t =>
          if is_digit c then fixed_digits n' (10 * acc + digit_val c) t else None
      | EmptyString => None
      end
  end.

(** [getnum(s, false)]: one decimal digit, or two when a second one
    follows. *)
Definition getnum (s : string) : option (Z * string) :=
  match s with
  | String c t =>
      if is_digit c then
        match t with
        | String c' t' =>
            if is_digit c' then Some (10 * digit_val c + digit_val c', t')
            else Some (digit_val c, t)
        | EmptyString => Some (digit_val c, t)
        end
      else None
  | EmptyString => None
  end.

Definition expect (c : ascii) (s : string) : option string :=
  match s with
  | String c' t => if Ascii.eqb c c' then Some t else None
  | EmptyString => None
  end.

Fixpoint skip_digits (s : string) : string :=
  match s with
  | String c t => if is_digit c then skip_digits t else s
  | EmptyString => EmptyString
  end.

(** The fractional part of the seconds, which the layout does not name but
    [Parse] accepts: a period or a comma followed by at least one digit.  It
    does not change the second the instant falls in. *)
Definition skip_fraction (s : string) : string :=
  match s with
  | String c (String c' t) =>
      if (Ascii.eqb c "." || Ascii.eqb c ",") && is_digit c'
      then skip_digits t else s
  | _ => s
  end.

Definition is_leap (y : Z) : bool :=
  (y mod 4 =? 0) && (negb (y mod 100 =? 0) || (y mod 400 =? 0)).

Definition days_in (y m : Z) : Z :=
  if m =? 2 then (if is_leap y then 29 else 28)
  else if (m =? 4) || (m =? 6) || (m =? 9) || (m =? 11) then 30
  else 31.

(** Days between 1970-01-01 and the given civil date. *)
Definition days_from_civil (y m d : Z) : Z :=
  let y' := if m <=? 2 then y - 1 else y in
  let era := y' / 400 in
  let yoe := y' - era * 400 in
  let mp := (m + 9) mod 12 in
  let doy := (153 * mp + 2) / 5 + d - 1 in
  let doe := yoe * 365 + yoe / 4 - yoe / 100 + doy in
  era * 146097 + doe - 719468.

(** The zone of the layout, [Z07:00]: the letter [Z], or six bytes, a sign,
    two digits, a colon and two digits.  The range test lets through an
    offset of 24 hours or of 60 minutes.  The result is the offset from UTC
    in seconds and what follows the zone. *)
Definition zone (s : string) : option (Z * string) :=
  match s with
  | String "Z"%char t => Some (0, t)
  | String sg (String h1 (String h2 (String colon (String m1 (String m2 t))))) =>
      if Ascii.eqb colon ":" then
        '(hr, _) ← fixed_digits 2 0 (String h1 (String h2 EmptyString));
        '(mm, _) ← fixed_digits 2 0 (String m1 (String m2 EmptyString));
        if (hr <=? 24) && (mm <=? 60) then
          if Ascii.eqb sg "+" then Some ((hr * 60 + mm) * 60, t)
          else if Ascii.eqb sg "-" then Some (- ((hr * 60 + mm) * 60), t)
          else None
        else None
      else None
  | _ => None
  end.

(** [time.Parse(time.RFC3339, s)] followed by [Unix()]: the seconds since
    the epoch of the instant [s] denotes; [None] when [Parse] returns an
    error.  The layout is [2006-01-02T15:04:05Z07:00]: a year of four
    digits, a month, a day, a minute and a second of two digits each, an
    hour of one or two digits, and nothing after the zone.  The day is
    checked against the month once everything is read. *)
Definition ParseRFC3339 (s : string) : option Z :=
  '(y, s) ← fixed_digits 4 0 s;
  s ← expect "-" s;
  '(m, s) ← fixed_digits 2 0 s;
  s ← expect "-" s;
  '(d, s) ← fixed_digits 2 0 s;
  s ← expect "T" s;
  '(hh, s) ← getnum s;
  s ← expect ":" s;
  '(mi, s) ← fixed_digits 2 0 s;
  s ← expect ":" s;
  '(ss, s) ← fixed_digits 2 0 s;
  '(off, s) ← zone (skip_fraction s);
  match s with
  | EmptyString =>
      if (1 <=? m) && (m <=? 12) && (1 <=? d) && (d <=? days_in y m)
         && (hh <? 24) && (mi <? 60) && (ss <? 60)
      then Some (days_from_civil y m d * 86400 + hh * 3600 + mi * 60 + ss - off)
      else None
  | _ => None
  end.

End time.

End Go.

(* ===================================================================== *)
(** ** The API client: [datadogV1] *)
(* ===================================================================== *)

(** Go's [error] values met in this file. *)
Inductive error : Type :=
| NumError (func_ num : string)
    (** what [strconv.ParseInt] returns on a malformed number *)
| ClientError (msg : string)
    (** a transport or API error of the client *)
| TranslatedError (host msg : string) (cause : error)
    (** the result of [utils.TranslateClientError] *)
| Errorf (prefix : string) (cause : error)
    (** [fmt.Errorf(prefix + "%s", cause.Error())] *)
| SetError (key msg : string).
    (** what [d.Set] returns when the field writer refuses a value *)

(** The outcome of a Go function that returns [(A, error)] and may also
    panic, as it does when it reads through a nil pointer. *)
Inductive result (A : Type) : Type :=
| Ok (a : A)
| Err (e : error)
| Panic (reason : string).
Arguments Ok {A} a.
Arguments Err {A} e.
Arguments Panic {A} reason.

Definition nil_dereference : string :=
  "invalid memory address or nil pointer dereference".

Module datadogV1.

(** The client's [NullableX] wrappers: a field that was never set, one set
    to an explicit null, and one that holds a value. *)
Inductive Nullable (A : Type) : Type :=
| Unset
| Null
| Value (a : A).
Arguments Unset {A}.
Arguments Null {A}.
Arguments Value {A} a.

(** [n.Get()]: the pointer held, nil unless there is a value. *)
Definition Get {A} (n : Nullable A) : option A :=
  match n with Value a => Some a | _ => None end.

(** [n.IsSet()]. *)
Definition IsSet {A} (n : Nullable A) : bool :=
  match n with Unset => false | _ => true end.

(** [DowntimeRecurrence].  Pointer fields are options; a slice is a list
    (the nil slice and the empty slice are both [[]]). *)
Record DowntimeRecurrence : Type := mkRecurrence {
  Period : option Z;
  Type_ : option string;
  UntilDate : Nullable Z;
  UntilOccurrences : Nullable Z;
  WeekDays : option (list string);
  Rrule : option string
}.

Definition emptyRecurrence : DowntimeRecurrence :=
  mkRecurrence None None Unset Unset None None.

(** [Downtime], with the fields this resource reads or writes. *)
Record Downtime : Type := mkDowntime {
  Active : option bool;
  Canceled : Nullable Z;
  Disabled : option bool;
  End_ : Nullable Z;
  Id : option Z;
  Message : option string;
  MonitorId : Nullable Z;
  MonitorTags : option (list string);
  Recurrence : Nullable DowntimeRecurrence;
  Scope : option (list string);
  Start : option Z;
  Timezone : option string
}.

(** [var dt datadogV1.Downtime]: the zero value. *)
Definition zeroDowntime : Downtime :=
  mkDowntime None Unset None Unset None None Unset None Unset None None None.

(** *** Getters *)

Definition GetActive (o : Downtime) : bool := default false (Active o).
Definition GetDisabled (o : Downtime) : bool := default false (Disabled o).
Definition GetEnd (o : Downtime) : Z := default 0 (Get (End_ o)).
Definition GetId (o : Downtime) : Z := default 0 (Id o).
Definition GetMessage (o : Downtime) : string := default "" (Message o).
Definition GetMonitorTags (o : Downtime) : list string := default [] (MonitorTags o).
Definition GetScope (o : Downtime) : list string := default [] (Scope o).
Definition GetStart (o : Downtime) : Z := default 0 (Start o).
Definition GetTimezone (o : Downtime) : string := default "" (Timezone o).

(** The [GetXOk] getters of nullable fields return [(o.X.Get(), o.X.IsSet())]. *)
Definition GetCanceledOk (o : Downtime) : option Z * bool :=
  (Get (Canceled o), IsSet (Canceled o)).
Definition GetMonitorIdOk (o : Downtime) : option Z * bool :=
  (Get (MonitorId o), IsSet (MonitorId o)).
Definition GetRecurrenceOk (o : Downtime) : option DowntimeRecurrence * bool :=
  (Get (Recurrence o), IsSet (Recurrence o)).

(** The [GetXOk] getters of pointer fields return the pointer and whether
    it is not nil. *)
Definition GetPeriodOk (r : DowntimeRecurrence) : option Z * bool :=
  (Period r, bool_decide (is_Some (Period r))).
Definition GetTypeOk (r : DowntimeRecurrence) : option string * bool :=
  (Type_ r, bool_decide (is_Some (Type_ r))).
Definition GetUntilDateOk (r : DowntimeRecurrence) : option Z * bool :=
  (Get (UntilDate r), IsSet (UntilDate r)).
Definition GetUntilOccurrencesOk (r : DowntimeRecurrence) : option Z * bool :=
  (Get (UntilOccurrences r), IsSet (UntilOccurrences r)).
Definition GetRruleOk (r : DowntimeRecurrence) : option string * bool :=
  (Rrule r, bool_decide (is_Some (Rrule r))).

(** *** Setters: each assigns one field and leaves the others. *)

Definition SetEnd (v : Z) (o : Downtime) : Downtime :=
  mkDowntime (Active o) (Canceled o) (Disabled o) (Value v) (Id o) (Message o)
    (MonitorId o) (MonitorTags o) (Recurrence o) (Scope o) (Start o) (Timezone o).
Definition SetId (v : Z) (o : Downtime) : Downtime :=
  mkDowntime (Active o) (Canceled o) (Disabled o) (End_ o) (Some v) (Message o)
    (MonitorId o) (MonitorTags o) (Recurrence o) (Scope o) (Start o) (Timezone o).
Definition SetMessage (v : string) (o : Downtime) : Downtime :=
  mkDowntime (Active o) (Canceled o) (Disabled o) (End_ o) (Id o) (Some v)
    (MonitorId o) (MonitorTags o) (Recurrence o) (Scope o) (Start o) (Timezone o).
Definition SetMonitorId (v : Z) (o : Downtime) : Downtime :=
  mkDowntime (Active o) (Canceled o) (Disabled o) (End_ o) (Id o) (Message o)
    (Value v) (MonitorTags o) (Recurrence o) (Scope o) (Start o) (Timezone o).
Definition SetMonitorTags (v : list string) (o : Downtime) : Downtime :=
  mkDowntime (Active o) (Canceled o) (Disabled o) (End_ o) (Id o) (Message o)
    (MonitorId o) (Some v) (Recurrence o) (Scope o) (Start o) (Timezone o).
Definition SetRecurrence (v : DowntimeRecurrence) (o : Downtime) : Downtime :=
  mkDowntime (Active o) (Canceled o) (Disabled o) (End_ o) (Id o) (Message o)
    (MonitorId o) (MonitorTags o) (Value v) (Scope o) (Start o) (Timezone o).
Definition SetScope (v : list string) (o : Downtime) : Downtime :=
  mkDowntime (Active o) (Canceled o) (Disabled o) (End_ o) (Id o) (Message o)
    (MonitorId o) (MonitorTags o) (Recurrence o) (Some v) (Start o) (Timezone o).
Definition SetStart (v : Z) (o : Downtime) : Downtime :=
  mkDowntime (Active o) (Canceled o) (Disabled o) (End_ o) (Id o) (Message o)
    (MonitorId o) (MonitorTags o) (Recurrence o) (Scope o) (Some v) (Timezone o).
Definition SetTimezone (v : string) (o : Downtime) : Downtime :=
  mkDowntime (Active o) (Canceled o) (Disabled o) (End_ o) (Id o) (Message o)
    (MonitorId o) (MonitorTags o) (Recurrence o) (Scope o) (Start o) (Some v).

Definition SetPeriod (v : Z) (r : DowntimeRecurrence) : DowntimeRecurrence :=
  mkRecurrence (Some v) (Type_ r) (UntilDate r) (UntilOccurrences r) (WeekDays r) (Rrule r).
Definition SetType (v : string) (r : DowntimeRecurrence) : DowntimeRecurrence :=
  mkRecurrence (Period r) (Some v) (UntilDate r) (UntilOccurrences r) (WeekDays r) (Rrule r).
Definition SetUntilDate (v : Z) (r : DowntimeRecurrence) : DowntimeRecurrence :=
  mkRecurrence (Period r) (Type_ r) (Value v) (UntilOccurrences r) (WeekDays r) (Rrule r).
Definition SetUntilOccurrences (v : Z) (r : DowntimeRecurrence) : DowntimeRecurrence :=
  mkRecurrence (Period r) (Type_ r) (UntilDate r) (Value v) (WeekDays r) (Rrule r).
Definition SetWeekDays (v : list string) (r : DowntimeRecurrence) : DowntimeRecurrence :=
  mkRecurrence (Period r) (Type_ r) (UntilDate r) (UntilOccurrences r) (Some v) (Rrule r).
Definition SetRrule (v : string) (r : DowntimeRecurrence) : DowntimeRecurrence :=
  mkRecurrence (Period r) (Type_ r) (UntilDate r) (UntilOccurrences r) (WeekDays r) (Some v).

(** *** The transport *)

(** [*http.Response], with what the resource looks at: the status code and
    [Request.URL.Host]. *)
Record Response : Type := mkResponse {
  StatusCode : Z;
  Host : string
}.

(** [DowntimesApi]: every operation returns the decoded resource, the HTTP
    response (nil, here [None], when the request never got one) and an
    error (nil when the call succeeded). *)
Record APIClient : Type := mkClient {
  GetDowntime : Z -> Downtime * option Response * option error;
  CreateDowntime : Downtime -> Downtime * option Response * option error;
  UpdateDowntime : Z -> Downtime -> Downtime * option Response * option error;
  CancelDowntime : Z -> option Response * option error
}.

End datadogV1.

(* ===================================================================== *)
(** ** The plugin SDK: [schema.ResourceData] *)
(* ===================================================================== *)

Module schema.

(** One element of the [recurrence] list as the state holds it: the map
    [map[string]interface{}] whose keys are the sub-fields present. *)
Record RecurrenceBlock : Type := mkBlock {
  period : option Z;
  type : option string;
  until_date : option Z;
  until_occurrences : option Z;
  week_days : option (list string);
  rrule : option string
}.

Definition emptyBlock : RecurrenceBlock :=
  mkBlock None None None None None None.

(** The dynamically typed values ([interface{}]) an attribute holds.
    [VNil] is what a read of an attribute nobody wrote yields: the zero
    value of whatever type the caller asserts. *)
Inductive value : Type :=
| VNil
| VBool (b : bool)
| VInt (i : Z)
| VString (s : string)
| VList (l : list string)
| VSet (s : gset string)
| VBlocks (l : list RecurrenceBlock).

(** The zero value of each type. *)
Definition is_zero (v : value) : bool :=
  match v with
  | VNil => true
  | VBool b => negb b
  | VInt i => i =? 0
  | VString s => String.eqb s ""
  | VList l => match l with [] => true | _ => false end
  | VSet s => bool_decide (s = ∅)
  | VBlocks l => match l with [] => true | _ => false end
  end.

(** Type assertions [attr.(bool)], [attr.(int)], [attr.(string)],
    [attr.([]interface{})] and the one to a [schema.Set] pointer.  The schema fixes the
    dynamic type of every attribute, so an assertion the code makes meets a
    value of that type or the zero value; a [TypeSet] attribute hands out
    as a set the list that was written into it. *)
Definition as_bool (v : value) : bool :=
  match v with VBool b => b | _ => false end.
Definition as_int (v : value) : Z :=
  match v with VInt i => i | _ => 0 end.
Definition as_string (v : value) : string :=
  match v with VString s => s | _ => "" end.
Definition as_list (v : value) : list string :=
  match v with VList l => l | _ => [] end.
Definition as_set (v : value) : gset string :=
  match v with VSet s => s | VList l => list_to_set l | _ => ∅ end.

(** The [List()] method of [schema.Set]: the elements of the set, each
    once.  The SDK lists them by increasing hash code; [elements] stands for
    that order, and the statements below hold for any order. *)
Definition List_ (s : gset string) : list string := elements s.

(** [*schema.ResourceData]: the identifier, the attributes as the merged
    view of state and configuration shows them, which attributes changed
    since the last known state, and the field writer behind [Set], which
    may refuse a value.  [rd_log] is a ghost field: the keys [Set] was
    called with, oldest first. *)
Record ResourceData : Type := mkResourceData {
  rd_id : string;
  rd_attrs : gmap string value;
  rd_changed : string -> bool;
  rd_writer : string -> value -> option error;
  rd_log : list string
}.

(** The sub-fields of the first [recurrence] block, addressed by
    [recurrence.0.<name>]. *)
Definition recurrenceField (k : string) : option (RecurrenceBlock -> option value) :=
  if String.eqb k "recurrence.0.period" then Some (λ b, VInt <$> period b)
  else if String.eqb k "recurrence.0.type" then Some (λ b, VString <$> type b)
  else if String.eqb k "recurrence.0.until_date" then Some (λ b, VInt <$> until_date b)
  else if String.eqb k "recurrence.0.until_occurrences"
       then Some (λ b, VInt <$> until_occurrences b)
  else if String.eqb k "recurrence.0.week_days" then Some (λ b, VList <$> week_days b)
  else if String.eqb k "recurrence.0.rrule" then Some (λ b, VString <$> rrule b)
  else None.

Definition readField (d : ResourceData) (k : string) : option value :=
  match recurrenceField k with
  | Some proj =>
      match rd_attrs d !! "recurrence" with
      | Some (VBlocks (b :: _)) => proj b
      | _ => None
      end
  | None => rd_attrs d !! k
  end.

(** [d.Id()]. *)
Definition Id (d : ResourceData) : string := rd_id d.

(** [d.Get(key)]: the value, or the zero value. *)
Definition Get (d : ResourceData) (k : string) : value :=
  default VNil (readField d k).

(** [d.GetOk(key)]: [Some v] stands for [(v, true)], which the SDK returns
    when the attribute exists and differs from the zero value of its type;
    [None] stands for [(_, false)]. *)
Definition GetOk (d : ResourceData) (k : string) : option value :=
  match readField d k with
  | Some v => if is_zero v then None else Some v
  | None => None
  end.

(** [d.HasChange(key)]. *)
Definition HasChange (d : ResourceData) (k : string) : bool := rd_changed d k.

(** *** Operations that change the [ResourceData]

    A computation reads and updates the [ResourceData] and ends with a
    value, an error or a panic. *)
Definition M (A : Type) : Type := ResourceData -> ResourceData * result A.

Definition ret {A} (a : A) : M A := λ d, (d, Ok a).
Definition fail {A} (e : error) : M A := λ d, (d, Err e).
Definition panic {A} (reason : string) : M A := λ d, (d, Panic reason).
Definition bind {A B} (m : M A) (k : A -> M B) : M B :=
  λ d, match m d with
       | (d', Ok a) => k a d'
       | (d', Err e) => (d', Err e)
       | (d', Panic r) => (d', Panic r)
       end.
Definition get : M ResourceData := λ d, (d, Ok d).
Definition lift {A} (r : result A) : M A := λ d, (d, r).

(** Reading through a pointer: a nil pointer panics. *)
Definition deref {A} (p : option A) : M A :=
  match p with
  | Some a => ret a
  | None => panic nil_dereference
  end.

(** [d.SetId(id)]. *)
Definition SetId (id : string) : M unit :=
  λ d, (mkResourceData id (rd_attrs d) (rd_changed d) (rd_writer d) (rd_log d), Ok tt).

(** [d.Set(key, v)]: the writer either refuses the value, and the
    attributes stay as they are, or the attribute takes it. *)
Definition Set_ (k : string) (v : value) : M unit :=
  λ d, match rd_writer d k v with
       | Some e =>
           (mkResourceData (rd_id d) (rd_attrs d) (rd_changed d) (rd_writer d)
              (rd_log d ++ [k]), Err e)
       | None =>
           (mkResourceData (rd_id d) (<[k := v]> (rd_attrs d)) (rd_changed d)
              (rd_writer d) (rd_log d ++ [k]), Ok tt)
       end.

End schema.

Declare Scope go_scope.
Delimit Scope go_scope with go.
Notation "x <- c1 ;; c2" := (schema.bind c1 (λ x, c2))
  (at level 100, c1 at next level, right associativity) : go_scope.
Notation "c1 ;; c2" := (schema.bind c1 (λ _, c2))
  (at level 100, right associativity) : go_scope.

(** The pure part of a Go function that returns [(A, error)]. *)
Definition result_bind {A B} (r : result A) (k : A -> result B) : result B :=
  match r with
  | Ok a => k a
  | Err e => Err e
  | Panic why => Panic why
  end.

(** Modelled from the spec: [utils.TranslateClientError] of
    [datadog/internal/utils], which is not among the sources.  It converts a
    raw transport or API error into a normalized error that carries the
    failed host and a contextual message. *)
Definition TranslateClientError (err : error) (host msg : string) : error :=
  TranslatedError host msg err.

(** [reflect.DeepEqual] on two string slices, the second of which is not
    empty: same length and same elements. *)
Definition DeepEqual (a b : list string) : bool := bool_decide (a = b).

(* ===================================================================== *)
(** ** The resource: [resource_datadog_downtime.go] *)
(* ===================================================================== *)

Local Open Scope go_scope.

(** Returns the timestamp of a boundary (start or end) and the name of the
    attribute it was extracted from.  The results are named in the source:
    [ts] starts as [0] and [tsFrom] as the empty string.  The function is
    written over [parse], which stands for the call of [time.Parse] with the
    RFC3339 layout followed by [Unix()]: the control flow does not depend on
    which strings that call accepts. *)
Definition getDowntimeBoundaryTimestampWith (parse : string -> option Z)
    (d : schema.ResourceData) (dateAttr tsAttr : string) : Z * string :=
  match schema.GetOk d dateAttr with
  | Some attr =>
      match parse (schema.as_string attr) with
      | Some t => (t, dateAttr)
      | None => (0, "")
      end
  | None =>
      match schema.GetOk d tsAttr with
      | Some attr => (schema.as_int attr, tsAttr)
      | None => (0, "")
      end
  end.

(** The function of the source, with Go's parser. *)
Definition getDowntimeBoundaryTimestamp
    (d : schema.ResourceData) (dateAttr tsAttr : string) : Z * string :=
  getDowntimeBoundaryTimestampWith Go.time.ParseRFC3339 d dateAttr tsAttr.

(** Whether the boundary goes into the POST / PUT request. *)
Definition downtimeBoundaryNeedsApply
    (d : schema.ResourceData) (tsFrom : string) (apiTs configTs : Z)
    (updating : bool) : bool :=
  if String.eqb tsFrom "" then false
  else if updating then
    (if negb (apiTs =? configTs) || schema.HasChange d tsFrom then true else false)
  else true.

(** The [recurrence] part of the request, built when the attribute is set. *)
Definition buildRecurrence (d : schema.ResourceData) : datadogV1.DowntimeRecurrence :=
  let recurrence := datadogV1.emptyRecurrence in
  let recurrence :=
    match schema.GetOk d "recurrence.0.period" with
    | Some attr => datadogV1.SetPeriod (Go.int32 (schema.as_int attr)) recurrence
    | None => recurrence
    end in
  let recurrence :=
    match schema.GetOk d "recurrence.0.type" with
    | Some attr => datadogV1.SetType (schema.as_string attr) recurrence
    | None => recurrence
    end in
  let recurrence :=
    match schema.GetOk d "recurrence.0.until_date" with
    | Some attr => datadogV1.SetUntilDate (schema.as_int attr) recurrence
    | None => recurrence
    end in
  let recurrence :=
    match schema.GetOk d "recurrence.0.until_occurrences" with
    | Some attr => datadogV1.SetUntilOccurrences (Go.int32 (schema.as_int attr)) recurrence
    | None => recurrence
    end in
  let recurrence :=
    match schema.GetOk d "recurrence.0.week_days" with
    | Some attr => datadogV1.SetWeekDays (schema.as_list attr) recurrence
    | None => recurrence
    end in
  match schema.GetOk d "recurrence.0.rrule" with
  | Some attr => datadogV1.SetRrule (schema.as_string attr) recurrence
  | None => recurrence
  end.

(** Builds the request from the configuration.  When updating, the current
    downtime is fetched first, for its start and end. *)
Definition buildDowntimeStruct
    (d : schema.ResourceData) (client : datadogV1.APIClient) (updating : bool)
  : result datadogV1.Downtime :=
  let dt := datadogV1.zeroDowntime in
  result_bind
    (if updating then
       match Go.strconv.ParseInt (schema.Id d) with
       | None => Err (NumError "ParseInt" (schema.Id d))
       | Some id =>
           let '(currdt, httpresp, err) := datadogV1.GetDowntime client id in
           match err with
           | Some e =>
               match httpresp with
               | Some r =>
                   Err (TranslateClientError e (datadogV1.Host r) "error getting downtime")
               | None => Panic nil_dereference
               end
           | None => Ok (datadogV1.GetStart currdt, datadogV1.GetEnd currdt)
           end
       end
     else Ok (0, 0))
    (λ current,
       let '(currentStart, currentEnd) := current in
       let '(endValue, endAttrName) := getDowntimeBoundaryTimestamp d "end_date" "end" in
       let dt :=
         if downtimeBoundaryNeedsApply d endAttrName currentEnd endValue updating
         then datadogV1.SetEnd endValue dt else dt in
       let dt :=
         match schema.GetOk d "message" with
         | Some attr => datadogV1.SetMessage (Go.strings.TrimSpace (schema.as_string attr)) dt
         | None => dt
         end in
       let dt :=
         match schema.GetOk d "monitor_id" with
         | Some attr => datadogV1.SetMonitorId (schema.as_int attr) dt
         | None => dt
         end in
       let dt :=
         match schema.GetOk d "recurrence" with
         | Some _ => datadogV1.SetRecurrence (buildRecurrence d) dt
         | None => dt
         end in
       let scope := schema.as_list (schema.Get d "scope") in
       let dt := datadogV1.SetScope scope dt in
       let tags := schema.List_ (schema.as_set (schema.Get d "monitor_tags")) in
       let dt := datadogV1.SetMonitorTags tags dt in
       let '(startValue, startAttrName) :=
         getDowntimeBoundaryTimestamp d "start_date" "start" in
       let dt :=
         if downtimeBoundaryNeedsApply d startAttrName currentStart startValue updating
         then datadogV1.SetStart startValue dt else dt in
       let dt :=
         match schema.GetOk d "timezone" with
         | Some attr => datadogV1.SetTimezone (schema.as_string attr) dt
         | None => dt
         end in
       Ok dt).

(** The map the projection builds for a remote recurrence: a key for every
    sub-field the payload carries. *)
Definition projectRecurrence (r : datadogV1.DowntimeRecurrence) : schema.RecurrenceBlock :=
  schema.mkBlock
    (match datadogV1.GetPeriodOk r with (attr, true) => attr | _ => None end)
    (match datadogV1.GetTypeOk r with (attr, true) => attr | _ => None end)
    (match datadogV1.GetUntilDateOk r with (attr, true) => attr | _ => None end)
    (match datadogV1.GetUntilOccurrencesOk r with (attr, true) => attr | _ => None end)
    (match datadogV1.WeekDays r with Some weekDays => Some weekDays | None => None end)
    (match datadogV1.GetRruleOk r with (attr, true) => attr | _ => None end).

(** Copies the remote downtime into the local state, field by field; the
    first write that fails ends the function with its error. *)
Definition updateDowntimeState (dt : datadogV1.Downtime) : schema.M unit :=
  schema.Set_ "active" (schema.VBool (datadogV1.GetActive dt)) ;;
  schema.Set_ "disabled" (schema.VBool (datadogV1.GetDisabled dt)) ;;
  schema.Set_ "end" (schema.VInt (datadogV1.GetEnd dt)) ;;
  schema.Set_ "message" (schema.VString (datadogV1.GetMessage dt)) ;;
  match datadogV1.GetMonitorIdOk dt with
  | (Some v, true) => schema.Set_ "monitor_id" (schema.VInt v)
  | _ => schema.ret tt
  end ;;
  schema.Set_ "timezone" (schema.VString (datadogV1.GetTimezone dt)) ;;
  match datadogV1.GetRecurrenceOk dt with
  | (Some r, true) => schema.Set_ "recurrence" (schema.VBlocks [projectRecurrence r])
  | _ => schema.ret tt
  end ;;
  schema.Set_ "scope" (schema.VList (default [] (datadogV1.Scope dt))) ;;
  (if negb (DeepEqual (datadogV1.GetMonitorTags dt) ["*"])
   then schema.Set_ "monitor_tags" (schema.VList (datadogV1.GetMonitorTags dt))
   else schema.ret tt) ;;
  schema.Set_ "start" (schema.VInt (datadogV1.GetStart dt)).

Definition resourceDatadogDowntimeCreate (client : datadogV1.APIClient) : schema.M unit :=
  d <- schema.get ;;
  match buildDowntimeStruct d client false with
  | Err e => schema.fail (Errorf "failed to parse resource configuration: " e)
  | Panic why => schema.panic why
  | Ok dts =>
      let '(dt, httpresp, err) := datadogV1.CreateDowntime client dts in
      match err with
      | Some e =>
          r <- schema.deref httpresp ;;
          schema.fail (TranslateClientError e (datadogV1.Host r) "error creating downtime")
      | None =>
          schema.SetId (Go.strconv.FormatInt (datadogV1.GetId dt)) ;;
          updateDowntimeState dt
      end
  end.

Definition resourceDatadogDowntimeRead (client : datadogV1.APIClient) : schema.M unit :=
  d <- schema.get ;;
  match Go.strconv.ParseInt (schema.Id d) with
  | None => schema.fail (NumError "ParseInt" (schema.Id d))
  | Some id =>
      let '(dt, httpresp, err) := datadogV1.GetDowntime client id in
      match err with
      | Some e =>
          if match httpresp with
             | Some r => datadogV1.StatusCode r =? 404
             | None => false
             end
          then schema.SetId ""
          else
            r <- schema.deref httpresp ;;
            schema.fail (TranslateClientError e (datadogV1.Host r) "error getting downtime")
      | None =>
          match datadogV1.GetCanceledOk dt with
          | (Some _, true) => schema.SetId ""
          | _ => updateDowntimeState dt
          end
      end
  end.

Definition resourceDatadogDowntimeUpdate (client : datadogV1.APIClient) : schema.M unit :=
  d <- schema.get ;;
  match buildDowntimeStruct d client true with
  | Err e => schema.fail (Errorf "failed to parse resource configuration: " e)
  | Panic why => schema.panic why
  | Ok dt =>
      match Go.strconv.ParseInt (schema.Id d) with
      | None => schema.fail (NumError "ParseInt" (schema.Id d))
      | Some id =>
          let dt := datadogV1.SetId id dt in
          let '(updatedDowntime, httpresp, err) := datadogV1.UpdateDowntime client id dt in
          match err with
          | Some e =>
              r <- schema.deref httpresp ;;
              schema.fail (TranslateClientError e (datadogV1.Host r) "error updating downtime")
          | None =>
              schema.SetId (Go.strconv.FormatInt (datadogV1.GetId dt)) ;;
              updateDowntimeState updatedDowntime
          end
      end
  end.

Definition resourceDatadogDowntimeDelete (client : datadogV1.APIClient) : schema.M unit :=
  d <- schema.get ;;
  match Go.strconv.ParseInt (schema.Id d) with
  | None => schema.fail (NumError "ParseInt" (schema.Id d))
  | Some id =>
      let '(httpresp, err) := datadogV1.CancelDowntime client id in
      match err with
      | Some e =>
          r <- schema.deref httpresp ;;
          schema.fail (TranslateClientError e (datadogV1.Host r) "error deleting downtime")
      | None => schema.ret tt
      end
  end.

Definition resourceDatadogDowntimeImport (client : datadogV1.APIClient)
  : schema.M (list schema.ResourceData) :=
  resourceDatadogDowntimeRead client ;;
  d <- schema.get ;;
  schema.ret [d].

(* ===================================================================== *)
(** ** The schema of the resource and its validation *)
(* ===================================================================== *)

Module validation.

Inductive ValueType : Type :=
| TypeBool | TypeInt | TypeString | TypeList | TypeSet.

(** [schema.Schema], with the fields that bear on the structure of an
    accepted configuration: the type, the required / optional / computed
    flags, [MaxItems], [ConflictsWith] and [Elem], which is either a schema
    (for a list or set of plain values) or a resource (for a list of blocks).
    [Description], [Default], [DiffSuppressFunc], [StateFunc] and
    [ValidateFunc] are left out: they look at one value at a time and play no
    part in the conflicts between attributes. *)
Inductive Schema : Type :=
| mkSchema (ty : ValueType) (required optional computed : bool)
    (maxItems : nat) (conflictsWith : list string) (elem : Elem)
with Elem : Type :=
| ElemNone
| ElemSchema (s : Schema)
| ElemResource (fields : list (string * Schema)).

Definition ConflictsWith (s : Schema) : list string :=
  match s with mkSchema _ _ _ _ _ cw _ => cw end.
Definition Required (s : Schema) : bool :=
  match s with mkSchema _ r _ _ _ _ _ => r end.
Definition Optional (s : Schema) : bool :=
  match s with mkSchema _ _ o _ _ _ _ => o end.

(** A schema literal is written the way the source writes it: the type
    first, then the fields it sets. *)
Definition ofType (ty : ValueType) : Schema :=
  mkSchema ty false false false 0 [] ElemNone.
Definition withRequired (s : Schema) : Schema :=
  match s with mkSchema ty _ o c m cw e => mkSchema ty true o c m cw e end.
Definition withOptional (s : Schema) : Schema :=
  match s with mkSchema ty r _ c m cw e => mkSchema ty r true c m cw e end.
Definition withComputed (s : Schema) : Schema :=
  match s with mkSchema ty r o _ m cw e => mkSchema ty r o true m cw e end.
Definition withMaxItems (n : nat) (s : Schema) : Schema :=
  match s with mkSchema ty r o c _ cw e => mkSchema ty r o c n cw e end.
Definition withConflictsWith (cw : list string) (s : Schema) : Schema :=
  match s with mkSchema ty r o c m _ e => mkSchema ty r o c m cw e end.
Definition withElem (e : Elem) (s : Schema) : Schema :=
  match s with mkSchema ty r o c m cw _ => mkSchema ty r o c m cw e end.

(** The [Elem] of the [recurrence] attribute. *)
Definition recurrenceSchema : list (string * Schema) :=
  [ ("period", withOptional (ofType TypeInt));
    ("type", withRequired (ofType TypeString));
    ("until_date",
      withConflictsWith ["recurrence.until_occurrences"]
        (withOptional (ofType TypeInt)));
    ("until_occurrences",
      withConflictsWith ["recurrence.until_date"]
        (withOptional (ofType TypeInt)));
    ("week_days",
      withElem (ElemSchema (ofType TypeString)) (withOptional (ofType TypeList)));
    ("rrule",
      withConflictsWith
        ["recurrence.period"; "recurrence.until_date";
         "recurrence.until_occurrences"; "recurrence.week_days"]
        (withOptional (ofType TypeString))) ].

(** The [Schema] map of [resourceDatadogDowntime]. *)
Definition resourceDatadogDowntime : list (string * Schema) :=
  [ ("active", withComputed (ofType TypeBool));
    ("disabled", withComputed (ofType TypeBool));
    ("start", withOptional (ofType TypeInt));
    ("start_date", withOptional (withConflictsWith ["start"] (ofType TypeString)));
    ("end", withOptional (ofType TypeInt));
    ("end_date", withOptional (withConflictsWith ["end"] (ofType TypeString)));
    ("timezone", withOptional (ofType TypeString));
    ("message", withOptional (ofType TypeString));
    ("recurrence",
      withElem (ElemResource recurrenceSchema)
        (withMaxItems 1 (withOptional (ofType TypeList))));
    ("scope",
      withElem (ElemSchema (ofType TypeString)) (withRequired (ofType TypeList)));
    ("monitor_id", withConflictsWith ["monitor_tags"] (withOptional (ofType TypeInt)));
    ("monitor_tags",
      withElem (ElemSchema (ofType TypeString))
        (withConflictsWith ["monitor_id"] (withOptional (ofType TypeSet)))) ].

(** A configuration as the SDK's validation sees it
    ([terraform.ResourceConfig]): plain values, lists, and maps from
    attribute names to configurations.  Every value is known. *)
Inductive Config : Type :=
| CPrim (v : string)
| CList (l : list Config)
| CMap (m : list (string * Config)).

Fixpoint assoc {A} (k : string) (m : list (string * A)) : option A :=
  match m with
  | [] => None
  | (k', v) :: m' => if String.eqb k k' then Some v else assoc k m'
  end.

(** [strings.Split(s, ".")]. *)
Fixpoint Split (s : string) : list string :=
  match s with
  | EmptyString => [EmptyString]
  | String c t =>
      if Ascii.eqb c "." then EmptyString :: Split t
      else match Split t with
           | p :: ps => String c p :: ps
           | [] => [String c EmptyString]
           end
  end.

(** The walk of [ResourceConfig.get]: a map is entered by key, a list by a
    numeric index; a part that is not a number finds nothing in a list.
    (The keys of a configuration of this resource contain no dot, and no
    path ends in the length marker of a list.) *)
Fixpoint walk (parts : list string) (current : Config) : option Config :=
  match parts with
  | [] => Some current
  | part :: rest =>
      match current with
      | CMap m =>
          match assoc part m with
          | Some v => walk rest v
          | None => None
          end
      | CList l =>
          match Go.strconv.ParseInt part with
          | Some i =>
              if (i <? 0) || (Z.of_nat (length l) <=? i) then None
              else match l !! Z.to_nat i with
                   | Some v => walk rest v
                   | None => None
                   end
          | None => None
          end
      | CPrim _ => None
      end
  end.

(** [c.Get(k)]. *)
Definition Get (c : list (string * Config)) (k : string) : option Config :=
  walk (match Split k with [EmptyString] => [] | parts => parts end) (CMap c).

Inductive ValidationError : Type :=
| MissingRequired (k : string)
| CannotBeSet (k : string)
| ConflictsWithError (k conflictingKey : string)
| ShouldBeList (k : string)
| TooManyItems (k : string).

(** [validateConflictingAttributes]: the first key of [ConflictsWith] the
    configuration holds a value for is reported. *)
Fixpoint conflictingKey (c : list (string * Config)) (keys : list string) : option string :=
  match keys with
  | [] => None
  | key :: keys' =>
      match Get c key with
      | Some _ => Some key
      | None => conflictingKey c keys'
      end
  end.

Definition validateConflictingAttributes
    (k : string) (s : Schema) (c : list (string * Config)) : option ValidationError :=
  match conflictingKey c (ConflictsWith s) with
  | Some key => Some (ConflictsWithError k key)
  | None => None
  end.

(** [schemaMap.validate] with [validateType], [validateList] and
    [validateObject]: a missing attribute is an error when it is required;
    a computed-only attribute cannot be set; then the conflicts; then, for
    a list of blocks, the length is checked against [MaxItems], and
    [validateList] returns there when the list is too long; otherwise every
    block is validated against the resource of [Elem], its attributes being
    addressed by [k.<index>.<name>]. *)
Fixpoint validate (k : string) (s : Schema) (c : list (string * Config))
  : list ValidationError :=
  match s with
  | mkSchema ty required optional computed maxItems conflictsWith elem =>
      match Get c k with
      | None => if required then [MissingRequired k] else []
      | Some raw =>
          if negb required && negb optional then [CannotBeSet k]
          else
            match validateConflictingAttributes k s c with
            | Some err => [err]
            | None =>
                match ty, elem with
                | TypeList, ElemResource fields =>
                    match raw with
                    | CList l =>
                        if (0 <? maxItems)%nat && (maxItems <? length l)%nat
                        then [TooManyItems k]
                        else
                          flat_map
                            (λ i : nat,
                               let key := k +:+ "." +:+ Go.strconv.FormatInt (Z.of_nat i) in
                               (fix validateObject (fs : list (string * Schema))
                                  : list ValidationError :=
                                  match fs with
                                  | [] => []
                                  | (subK, sub) :: fs' =>
                                      (validate (key +:+ "." +:+ subK) sub c
                                       ++ validateObject fs')%list
                                  end) fields)
                            (seq 0 (length l))
                    | _ => [ShouldBeList k]
                    end
                | _, _ => []
                end
            end
      end
  end.

(** [schemaMap.Validate]: every attribute of the schema is validated; the
    configuration is rejected when there is an error. *)
Definition Validate (sm : list (string * Schema)) (c : list (string * Config))
  : list ValidationError :=
  flat_map (λ '(k, s), validate k s c) sm.

Definition rejected (c : list (string * Config)) : Prop :=
  Validate resourceDatadogDowntime c ≠ [].

End validation.

(* ===================================================================== *)
(** ** Auxiliary definitions for the statements *)
(* ===================================================================== *)

(** The resolver as the prose describes it: the date-string attribute when
    it is set and parses, otherwise the integer attribute when it is set,
    otherwise zero and no attribute.  It is compared with
    [getDowntimeBoundaryTimestamp] below. *)
Definition boundaryTimestamp_as_claimed
    (d : schema.ResourceData) (dateAttr tsAttr : string) : Z * string :=
  match schema.GetOk d dateAttr ≫= (λ attr, Go.time.ParseRFC3339 (schema.as_string attr)) with
  | Some t => (t, dateAttr)
  | None =>
      match schema.GetOk d tsAttr with
      | Some attr => (schema.as_int attr, tsAttr)
      | None => (0, "")
      end
  end.

(** A sequence of writes, each made only when the one before succeeded. *)
Fixpoint writeAll (ws : list (string * schema.value)) : schema.M unit :=
  match ws with
  | [] => schema.ret tt
  | (k, v) :: ws' => schema.Set_ k v ;; writeAll ws'
  end.

(** The writes [updateDowntimeState] makes for a remote downtime, in order. *)
Definition projectionWrites (dt : datadogV1.Downtime) : list (string * schema.value) :=
  [ ("active", schema.VBool (datadogV1.GetActive dt));
    ("disabled", schema.VBool (datadogV1.GetDisabled dt));
    ("end", schema.VInt (datadogV1.GetEnd dt));
    ("message", schema.VString (datadogV1.GetMessage dt)) ]
  ++ match datadogV1.MonitorId dt with
     | datadogV1.Value v => [("monitor_id", schema.VInt v)]
     | _ => []
     end
  ++ [ ("timezone", schema.VString (datadogV1.GetTimezone dt)) ]
  ++ match datadogV1.Recurrence dt with
     | datadogV1.Value r => [("recurrence", schema.VBlocks [projectRecurrence r])]
     | _ => []
     end
  ++ [ ("scope", schema.VList (default [] (datadogV1.Scope dt))) ]
  ++ (if decide (datadogV1.GetMonitorTags dt = ["*"]) then []
      else [("monitor_tags", schema.VList (datadogV1.GetMonitorTags dt))])
  ++ [ ("start", schema.VInt (datadogV1.GetStart dt)) ].

(** The attributes after the writes [ws] were all accepted. *)
Definition written (ws : list (string * schema.value)) (attrs : gmap string schema.value)
  : gmap string schema.value :=
  foldl (λ m kv, <[kv.1 := kv.2]> m) attrs ws.

(** The writes of [ws] the writer [w] accepts before it refuses one, the
    writes that are attempted (the accepted ones and the refused one), and
    the error of the refused one. *)
Fixpoint accepted (w : string -> schema.value -> option error)
    (ws : list (string * schema.value)) : list (string * schema.value) :=
  match ws with
  | [] => []
  | (k, v) :: ws' =>
      match w k v with
      | Some _ => []
      | None => (k, v) :: accepted w ws'
      end
  end.

Fixpoint attempted (w : string -> schema.value -> option error)
    (ws : list (string * schema.value)) : list (string * schema.value) :=
  match ws with
  | [] => []
  | (k, v) :: ws' =>
      match w k v with
      | Some _ => [(k, v)]
      | None => (k, v) :: attempted w ws'
      end
  end.

Fixpoint refusal (w : string -> schema.value -> option error)
    (ws : list (string * schema.value)) : option error :=
  match ws with
  | [] => None
  | (k, v) :: ws' =>
      match w k v with
      | Some e => Some e
      | None => refusal w ws'
      end
  end.

(** The value the last write to [k] in [ws] carries. *)
Fixpoint lastWrite (k : string) (ws : list (string * schema.value)) : option schema.value :=
  match ws with
  | [] => None
  | (k', v) :: ws' =>
      match lastWrite k ws' with
      | Some v' => Some v'
      | None => if String.eqb k' k then Some v else None
      end
  end.

(** The [ResourceData] with another identifier, or other attributes and a
    longer log, and everything else as it was. *)
Definition withId (id : string) (d : schema.ResourceData) : schema.ResourceData :=
  schema.mkResourceData id (schema.rd_attrs d) (schema.rd_changed d)
    (schema.rd_writer d) (schema.rd_log d).

Definition afterWrites (acc att : list (string * schema.value)) (d : schema.ResourceData)
  : schema.ResourceData :=
  schema.mkResourceData (schema.rd_id d) (written acc (schema.rd_attrs d))
    (schema.rd_changed d) (schema.rd_writer d) (schema.rd_log d ++ map fst att).

(** *** Fixtures for the examples *)

Definition acceptAll : string -> schema.value -> option error := λ _ _, None.

(** A writer that refuses one attribute. *)
Definition refuse (key : string) : string -> schema.value -> option error :=
  λ k _, if String.eqb k key then Some (SetError key "invalid value") else None.

Definition resourceData (id : string) (attrs : list (string * schema.value))
  : schema.ResourceData :=
  schema.mkResourceData id (list_to_map attrs) (λ _, false) acceptAll [].

Definition ok200 : datadogV1.Response := datadogV1.mkResponse 200 "api.datadoghq.com".
Definition notFound : datadogV1.Response := datadogV1.mkResponse 404 "api.datadoghq.com".
Definition serverError : datadogV1.Response := datadogV1.mkResponse 500 "api.datadoghq.com".

(** A client whose fetch answers [fetched] and whose create and update
    answer [answer]. *)
Definition clientOf
    (fetched answer : datadogV1.Downtime * option datadogV1.Response * option error)
  : datadogV1.APIClient :=
  datadogV1.mkClient (λ _, fetched) (λ _, answer) (λ _ _, answer) (λ _, (Some ok200, None)).

Definition remoteDowntime (id : Z) (tags : option (list string)) : datadogV1.Downtime :=
  datadogV1.mkDowntime (Some true) datadogV1.Unset (Some false) (datadogV1.Value 1700003600)
    (Some id) (Some "  back at noon ") datadogV1.Unset tags datadogV1.Unset
    (Some ["host:web-1"; "env:prod"]) (Some 1700000000) (Some "UTC").

(** *** The functions the schema attaches to attributes *)

(** The [DiffSuppressFunc] of [start].  [now] is what [time.Now().Unix()]
    returns when the function runs. *)
Definition startDiffSuppressFunc
    (now : Z) (k oldVal newVal : string) (d : schema.ResourceData) : bool :=
  let startDatePresent :=
    match schema.GetOk d "start_date" with Some _ => true | None => false end in
  startDatePresent
  || (String.eqb newVal "0" && negb (String.eqb oldVal "0")
      && (schema.as_int (schema.Get d "start") <=? now)).

(** The [DiffSuppressFunc] of [end]. *)
Definition endDiffSuppressFunc
    (k oldVal newVal : string) (d : schema.ResourceData) : bool :=
  match schema.GetOk d "end_date" with Some _ => true | None => false end.

(** The [StateFunc] of [message]. *)
Definition messageStateFunc (val : schema.value) : string :=
  Go.strings.TrimSpace (schema.as_string val).

(** The value of a decimal numeral read from its first digit, [acc] being
    the value of the digits already read. *)
Fixpoint uintValue (acc : Z) (u : Decimal.uint) : Z :=
  match u with
  | Decimal.Nil => acc
  | Decimal.D0 u' => uintValue (10 * acc) u'
  | Decimal.D1 u' => uintValue (10 * acc + 1) u'
  | Decimal.D2 u' => uintValue (10 * acc + 2) u'
  | Decimal.D3 u' => uintValue (10 * acc + 3) u'
  | Decimal.D4 u' => uintValue (10 * acc + 4) u'
  | Decimal.D5 u' => uintValue (10 * acc + 5) u'
  | Decimal.D6 u' => uintValue (10 * acc + 6) u'
  | Decimal.D7 u' => uintValue (10 * acc + 7) u'
  | Decimal.D8 u' => uintValue (10 * acc + 8) u'
  | Decimal.D9 u' => uintValue (10 * acc + 9) u'
  end.

(** The attributes [updateDowntimeState] may write. *)
Definition projectedKeys : list string :=
  ["active"; "disabled"; "end"; "message"; "monitor_id"; "timezone";
   "recurrence"; "scope"; "monitor_tags"; "start"].

(* ===================================================================== *)
(** ** The standard library functions on examples *)
(* ===================================================================== *)

Example ParseInt_decimal : Go.strconv.ParseInt "5" = Some 5.
Proof. reflexivity. Qed.

Example ParseInt_signed : Go.strconv.ParseInt "-17" = Some (-17).
Proof. reflexivity. Qed.

Example ParseInt_syntax_error : Go.strconv.ParseInt "abc" = None.
Proof. reflexivity. Qed.

Example ParseInt_out_of_range : Go.strconv.ParseInt "9223372036854775808" = None.
Proof. reflexivity. Qed.

Example FormatInt_decimal : Go.strconv.FormatInt 1700000000 = "1700000000".
Proof. reflexivity. Qed.

Example TrimSpace_both_ends : Go.strings.TrimSpace "  back at  noon " = "back at  noon".
Proof. reflexivity. Qed.

Example ParseRFC3339_utc : Go.time.ParseRFC3339 "2023-11-14T22:13:20Z" = Some 1700000000.
Proof. reflexivity. Qed.

Example ParseRFC3339_offset :
  Go.time.ParseRFC3339 "2023-11-14T23:13:20+01:00" = Some 1700000000.
Proof. reflexivity. Qed.

Example ParseRFC3339_leap_day : Go.time.ParseRFC3339 "2023-02-29T00:00:00Z" = None.
Proof. reflexivity. Qed.

Example ParseRFC3339_malformed : Go.time.ParseRFC3339 "next tuesday" = None.
Proof. reflexivity. Qed.

Example ParseRFC3339_short_hour :
  Go.time.ParseRFC3339 "2023-11-14T2:13:20Z" = Some 1699928000.
Proof. reflexivity. Qed.

Example ParseRFC3339_widest_offsets :
  Go.time.ParseRFC3339 "2023-11-14T22:13:20+24:00" = Some 1699913600
  /\ Go.time.ParseRFC3339 "2023-11-14T22:13:20+23:60" = Some 1699913600
  /\ Go.time.ParseRFC3339 "2023-11-14T22:13:20+25:00" = None
  /\ Go.time.ParseRFC3339 "2023-11-14T22:13:20-00:61" = None.
Proof. repeat split; reflexivity. Qed.

Example ParseRFC3339_fraction :
  Go.time.ParseRFC3339 "2023-11-14T22:13:20.75Z" = Some 1700000000
  /\ Go.time.ParseRFC3339 "2023-11-14T22:13:20Zulu" = None
  /\ Go.time.ParseRFC3339 "2023-11-14T24:00:00Z" = None
  /\ Go.time.ParseRFC3339 "2023-11-14 22:13:20Z" = None.
Proof. repeat split; reflexivity. Qed.

Example TrimSpace_unicode :
  let nbsp := String (ascii_of_nat 194) (String (ascii_of_nat 160) "") in
  let ideographic :=
    String (ascii_of_nat 227) (String (ascii_of_nat 128) (String (ascii_of_nat 128) "")) in
  let zero_width :=
    String (ascii_of_nat 226) (String (ascii_of_nat 128) (String (ascii_of_nat 139) "")) in
  Go.strings.TrimSpace (nbsp +:+ " noon" +:+ ideographic +:+ nbsp) = "noon"
  /\ Go.strings.TrimSpace (zero_width +:+ "noon ") = zero_width +:+ "noon"
  /\ Go.strings.TrimSpace (String (ascii_of_nat 160) " noon") = String (ascii_of_nat 160) " noon"
  /\ Go.strings.TrimSpace (" " +:+ nbsp) = "".
Proof. repeat split; reflexivity. Qed.

(* ===================================================================== *)
(** ** The boundary helpers *)
(* ===================================================================== *)

Section Boundary.

Variable d : schema.ResourceData.

Lemma needsApply_unset (apiTs configTs : Z) (updating : bool) :
  downtimeBoundaryNeedsApply d "" apiTs configTs updating = false.
Proof. reflexivity. Qed.

Lemma needsApply_create (tsFrom : string) (apiTs configTs : Z) :
  tsFrom ≠ "" -> downtimeBoundaryNeedsApply d tsFrom apiTs configTs false = true.
Proof.
  intros Hset. unfold downtimeBoundaryNeedsApply.
  destruct (String.eqb_spec tsFrom ""); [contradiction | reflexivity].
Qed.

Lemma needsApply_update (tsFrom : string) (apiTs configTs : Z) :
  tsFrom ≠ "" ->
  downtimeBoundaryNeedsApply d tsFrom apiTs configTs true = true
  <-> apiTs ≠ configTs \/ schema.HasChange d tsFrom = true.
Proof.
  intros Hset. unfold downtimeBoundaryNeedsApply.
  destruct (String.eqb_spec tsFrom ""); [contradiction |].
  destruct (Z.eqb_spec apiTs configTs) as [Heq | Hne];
    destruct (schema.HasChange d tsFrom); simpl;
    split; intros H; auto; try discriminate.
  destruct H as [H | H]; [contradiction | discriminate].
Qed.

Lemma resolver_unset (dateAttr tsAttr : string) :
  schema.GetOk d dateAttr = None -> schema.GetOk d tsAttr = None ->
  getDowntimeBoundaryTimestamp d dateAttr tsAttr = (0, "").
Proof.
  intros Hdate Hts.
  unfold getDowntimeBoundaryTimestamp, getDowntimeBoundaryTimestampWith.
  now rewrite Hdate, Hts.
Qed.

End Boundary.

(** C1.  The apply-decision is true exactly when the boundary was supplied
    (the resolver named an attribute) and either the call is a create, or the
    server's current value differs from the configured one, or the supplying
    attribute has changed.  A boundary that neither the date-string nor the
    integer attribute supplies is resolved to no attribute, so its decision
    is false in create and in update mode. *)
Theorem downtimeBoundaryNeedsApply_decision :
  (forall (d : schema.ResourceData) (tsFrom : string) (apiTs configTs : Z) (updating : bool),
      downtimeBoundaryNeedsApply d tsFrom apiTs configTs updating = true
      <-> tsFrom ≠ ""
          /\ (updating = false
              \/ apiTs ≠ configTs
              \/ schema.HasChange d tsFrom = true))
  /\ (forall (d : schema.ResourceData) (dateAttr tsAttr : string) (apiTs : Z) (updating : bool),
        schema.GetOk d dateAttr = None ->
        schema.GetOk d tsAttr = None ->
        let '(configTs, tsFrom) := getDowntimeBoundaryTimestamp d dateAttr tsAttr in
        downtimeBoundaryNeedsApply d tsFrom apiTs configTs updating = false).
Proof.
  split.
  - intros d tsFrom apiTs configTs updating.
    destruct (decide (tsFrom = "")) as [-> | Hset].
    + rewrite needsApply_unset. split; [discriminate | intros [H _]; congruence].
    + destruct updating.
      * rewrite (needsApply_update d tsFrom apiTs configTs Hset).
        split.
        -- intros H. split; [assumption | right; assumption].
        -- intros [_ [H | H]]; [discriminate | assumption].
      * rewrite (needsApply_create d tsFrom apiTs configTs Hset).
        split; auto.
  - intros d dateAttr tsAttr apiTs updating Hdate Hts.
    rewrite (resolver_unset d dateAttr tsAttr Hdate Hts).
    apply needsApply_unset.
Qed.

(** The scenarios of the specification for the decision. *)
Example create_with_start_only :
  let d := resourceData "" [("scope", schema.VList ["host:web-1"]);
                            ("start", schema.VInt 1700000000)] in
  getDowntimeBoundaryTimestamp d "start_date" "start" = (1700000000, "start")
  /\ downtimeBoundaryNeedsApply d "start" 0 1700000000 false = true
  /\ getDowntimeBoundaryTimestamp d "end_date" "end" = (0, "")
  /\ downtimeBoundaryNeedsApply d "" 0 0 false = false.
Proof. vm_compute. repeat split; reflexivity. Qed.

Example update_with_unchanged_end :
  let d := resourceData "5" [("scope", schema.VList ["host:web-1"]);
                             ("end", schema.VInt 1700003600)] in
  downtimeBoundaryNeedsApply d "end" 1700003600 1700003600 true = false.
Proof. reflexivity. Qed.

(** C2, as stated, does not hold: with a date-string attribute that is set
    but malformed and an integer attribute that is set, the resolver does not
    fall back to the integer attribute. *)
Lemma boundaryTimestamp_as_claimed_fails :
  ¬ (forall (d : schema.ResourceData) (dateAttr tsAttr : string),
        getDowntimeBoundaryTimestamp d dateAttr tsAttr
        = boundaryTimestamp_as_claimed d dateAttr tsAttr).
Proof.
  intros H.
  specialize
    (H (resourceData "5" [("end_date", schema.VString "next tuesday");
                          ("end", schema.VInt 1700003600)])
       "end_date" "end").
  vm_compute in H. discriminate H.
Qed.

Example malformed_date_hides_timestamp :
  let d := resourceData "5" [("end_date", schema.VString "next tuesday");
                             ("end", schema.VInt 1700003600)] in
  getDowntimeBoundaryTimestamp d "end_date" "end" = (0, "")
  /\ boundaryTimestamp_as_claimed d "end_date" "end" = (1700003600, "end").
Proof. vm_compute. split; reflexivity. Qed.

(** C2, amended.  The resolver is total (no error is raised) and,
    whichever strings [time.Parse] accepts, returns: the parsed epoch value
    tagged with the date-string attribute's name when that attribute is set
    and parses; zero tagged as unset when that attribute is set and
    [time.Parse] refuses it, whether or not the integer attribute is set;
    the integer attribute's value tagged with its name when the date-string
    attribute is not set and the integer attribute is; zero tagged as unset
    when neither is set.  The function of the source is the instance at
    Go's parser. *)
Theorem getDowntimeBoundaryTimestamp_cases
    (parse : string -> option Z)
    (d : schema.ResourceData) (dateAttr tsAttr : string) :
  (forall attr t,
      schema.GetOk d dateAttr = Some attr ->
      parse (schema.as_string attr) = Some t ->
      getDowntimeBoundaryTimestampWith parse d dateAttr tsAttr = (t, dateAttr))
  /\ (forall attr,
        schema.GetOk d dateAttr = Some attr ->
        parse (schema.as_string attr) = None ->
        getDowntimeBoundaryTimestampWith parse d dateAttr tsAttr = (0, ""))
  /\ (forall attr,
        schema.GetOk d dateAttr = None ->
        schema.GetOk d tsAttr = Some attr ->
        getDowntimeBoundaryTimestampWith parse d dateAttr tsAttr
        = (schema.as_int attr, tsAttr))
  /\ (schema.GetOk d dateAttr = None ->
      schema.GetOk d tsAttr = None ->
      getDowntimeBoundaryTimestampWith parse d dateAttr tsAttr = (0, ""))
  /\ getDowntimeBoundaryTimestamp d dateAttr tsAttr
     = getDowntimeBoundaryTimestampWith Go.time.ParseRFC3339 d dateAttr tsAttr.
Proof.
  unfold getDowntimeBoundaryTimestamp, getDowntimeBoundaryTimestampWith.
  repeat split.
  - intros attr t -> ->. reflexivity.
  - intros attr -> ->. reflexivity.
  - intros attr -> ->. reflexivity.
  - intros -> ->. reflexivity.
Qed.

(** The four cases of the resolver on the end boundary, with Go's parser. *)
Lemma getDowntimeBoundaryTimestamp_cases_witness :
  let dated := resourceData "5" [("end_date", schema.VString "2023-11-14T23:13:20Z");
                                 ("end", schema.VInt 1700000000)] in
  let garbled := resourceData "5" [("end_date", schema.VString "next tuesday");
                                   ("end", schema.VInt 1700000000)] in
  let stamped := resourceData "5" [("end", schema.VInt 1700000000)] in
  let bare := resourceData "5" [] in
  getDowntimeBoundaryTimestamp dated "end_date" "end" = (1700003600, "end_date")
  /\ getDowntimeBoundaryTimestamp garbled "end_date" "end" = (0, "")
  /\ getDowntimeBoundaryTimestamp stamped "end_date" "end" = (1700000000, "end")
  /\ getDowntimeBoundaryTimestamp bare "end_date" "end" = (0, "").
Proof.
  intros dated garbled stamped bare.
  split; [| split; [| split]].
  - apply (proj1 (getDowntimeBoundaryTimestamp_cases
                    Go.time.ParseRFC3339 dated "end_date" "end")
             (schema.VString "2023-11-14T23:13:20Z")); reflexivity.
  - apply (proj1 (proj2 (getDowntimeBoundaryTimestamp_cases
                           Go.time.ParseRFC3339 garbled "end_date" "end"))
             (schema.VString "next tuesday")); reflexivity.
  - apply (proj1 (proj2 (proj2 (getDowntimeBoundaryTimestamp_cases
                                  Go.time.ParseRFC3339 stamped "end_date" "end")))
             (schema.VInt 1700000000)); reflexivity.
  - apply (proj1 (proj2 (proj2 (proj2 (getDowntimeBoundaryTimestamp_cases
                                         Go.time.ParseRFC3339 bare "end_date" "end")))));
      reflexivity.
Defined.

(* ===================================================================== *)
(** ** Sequences of writes *)
(* ===================================================================== *)

Lemma bind_ret_unit (m : schema.M unit) (d : schema.ResourceData) :
  (m ;; schema.ret tt) d = m d.
Proof.
  unfold schema.bind. destruct (m d) as [d' [[] | e | why]]; reflexivity.
Qed.

Lemma bind_assoc {A B C} (m : schema.M A) (f : A -> schema.M B) (g : B -> schema.M C)
    (d : schema.ResourceData) :
  schema.bind (schema.bind m f) g d = schema.bind m (λ a, schema.bind (f a) g) d.
Proof.
  unfold schema.bind. destruct (m d) as [d' [a | e | why]]; reflexivity.
Qed.

Lemma bind_ext {A B} (m : schema.M A) (f g : A -> schema.M B) (d : schema.ResourceData) :
  (forall a d', f a d' = g a d') -> schema.bind m f d = schema.bind m g d.
Proof.
  intros Hfg. unfold schema.bind. destruct (m d) as [d' [a | e | why]]; auto.
Qed.

Lemma writeAll_app (ws1 ws2 : list (string * schema.value)) (d : schema.ResourceData) :
  writeAll (ws1 ++ ws2) d = (writeAll ws1 ;; writeAll ws2) d.
Proof.
  revert d. induction ws1 as [| [k v] ws1 IH]; intros d.
  - reflexivity.
  - simpl. rewrite bind_assoc. apply bind_ext. intros [] d'. apply IH.
Qed.

Lemma afterWrites_nil (d : schema.ResourceData) : afterWrites [] [] d = d.
Proof.
  destruct d. unfold afterWrites, written. simpl. now rewrite app_nil_r.
Qed.

(** What a sequence of writes does: the accepted writes reach the
    attributes, the attempted ones the log, and the outcome is the first
    refusal, if there is one. *)
Lemma writeAll_run (ws : list (string * schema.value)) (d : schema.ResourceData) :
  writeAll ws d
  = (afterWrites (accepted (schema.rd_writer d) ws) (attempted (schema.rd_writer d) ws) d,
     match refusal (schema.rd_writer d) ws with
     | Some e => Err e
     | None => Ok tt
     end).
Proof.
  revert d. induction ws as [| [k v] ws IH]; intros d.
  - simpl. now rewrite afterWrites_nil.
  - simpl. unfold schema.bind, schema.Set_.
    destruct (schema.rd_writer d k v) as [e |] eqn:Hw.
    + unfold afterWrites, written. reflexivity.
    + rewrite IH. unfold afterWrites, written. simpl.
      now rewrite <- app_assoc.
Qed.

Lemma accepted_all (w : string -> schema.value -> option error)
    (ws : list (string * schema.value)) :
  refusal w ws = None -> accepted w ws = ws /\ attempted w ws = ws.
Proof.
  induction ws as [| [k v] ws IH]; simpl; [auto |].
  destruct (w k v); [discriminate |].
  intros H. destruct (IH H) as [-> ->]. auto.
Qed.

Lemma first_refusal (w : string -> schema.value -> option error)
    (pre post : list (string * schema.value)) (k : string) (v : schema.value) (e : error) :
  Forall (λ kv, w kv.1 kv.2 = None) pre ->
  w k v = Some e ->
  accepted w (pre ++ (k, v) :: post) = pre
  /\ attempted w (pre ++ (k, v) :: post) = pre ++ [(k, v)]
  /\ refusal w (pre ++ (k, v) :: post) = Some e.
Proof.
  intros Hpre Hk. induction Hpre as [| [k' v'] pre Hkv Hpre IH]; simpl in *.
  - rewrite Hk. auto.
  - rewrite Hkv. destruct IH as (-> & -> & ->). auto.
Qed.

Lemma accepted_prefix (w : string -> schema.value -> option error)
    (ws : list (string * schema.value)) :
  exists rest, ws = accepted w ws ++ rest.
Proof.
  induction ws as [| [k v] ws [rest IH]]; simpl.
  - exists []. reflexivity.
  - destruct (w k v).
    + eexists. reflexivity.
    + exists rest. simpl. now rewrite <- IH.
Qed.

Lemma attempted_prefix (w : string -> schema.value -> option error)
    (ws : list (string * schema.value)) :
  exists rest, ws = attempted w ws ++ rest.
Proof.
  induction ws as [| [k v] ws [rest IH]]; simpl.
  - exists []. reflexivity.
  - destruct (w k v).
    + eexists. reflexivity.
    + exists rest. simpl. now rewrite <- IH.
Qed.

Lemma written_lookup (ws : list (string * schema.value)) (m : gmap string schema.value)
    (k : string) :
  written ws m !! k = match lastWrite k ws with Some v => Some v | None => m !! k end.
Proof.
  revert m. induction ws as [| [k' v] ws IH]; intros m; [reflexivity |].
  unfold written in *. simpl. rewrite IH.
  destruct (lastWrite k ws); [reflexivity |].
  destruct (String.eqb_spec k' k) as [-> | Hne].
  - apply lookup_insert_eq.
  - now apply lookup_insert_ne.
Qed.

Lemma lastWrite_absent (k : string) (ws : list (string * schema.value)) :
  k ∉ map fst ws -> lastWrite k ws = None.
Proof.
  induction ws as [| [k' v] ws IH]; simpl; [reflexivity |].
  intros Hnot. apply not_elem_of_cons in Hnot as [Hne Hnot].
  rewrite (IH Hnot).
  destruct (String.eqb_spec k' k); [congruence | reflexivity].
Qed.

Lemma lastWrite_elem (k : string) (ws : list (string * schema.value)) (v : schema.value) :
  lastWrite k ws = Some v -> k ∈ map fst ws.
Proof.
  revert v. induction ws as [| [k' v'] ws IH]; simpl; intros v; [discriminate |].
  destruct (lastWrite k ws) as [v0 |].
  - intros _. apply list_elem_of_further. now apply (IH v0).
  - destruct (String.eqb_spec k' k) as [-> | Hne]; [| discriminate].
    intros _. apply list_elem_of_here.
Qed.

Lemma afterWrites_attrs (acc att : list (string * schema.value)) (d : schema.ResourceData) :
  schema.rd_attrs (afterWrites acc att d) = written acc (schema.rd_attrs d).
Proof. reflexivity. Qed.

(** An attribute outside the [recurrence] block is read from the map. *)
Lemma readField_top (d : schema.ResourceData) (k : string) :
  schema.recurrenceField k = None -> schema.readField d k = schema.rd_attrs d !! k.
Proof. unfold schema.readField. now intros ->. Qed.

Arguments schema.Set_ : simpl never.

(** The projection is the sequence of writes [projectionWrites] lists. *)
Lemma updateDowntimeState_writeAll (dt : datadogV1.Downtime) (d : schema.ResourceData) :
  updateDowntimeState dt d = writeAll (projectionWrites dt) d.
Proof.
  unfold updateDowntimeState, projectionWrites, DeepEqual,
    datadogV1.GetMonitorIdOk, datadogV1.GetRecurrenceOk.
  destruct (datadogV1.MonitorId dt), (datadogV1.Recurrence dt),
    (decide (datadogV1.GetMonitorTags dt = ["*"])) as [Htags | Htags];
    try rewrite (bool_decide_eq_true_2 _ Htags);
    try rewrite (bool_decide_eq_false_2 _ Htags);
    simpl;
    unfold schema.bind, schema.ret;
    repeat match goal with
      | |- context [schema.Set_ ?k ?v ?x] =>
          destruct (schema.Set_ k v x) as [? [[] | ? | ?]]; try reflexivity
      end.
Qed.

(* ===================================================================== *)
(** ** Read *)
(* ===================================================================== *)

Section Read.

Variables (client : datadogV1.APIClient) (d : schema.ResourceData) (id : Z).
Hypothesis Hid : Go.strconv.ParseInt (schema.Id d) = Some id.

(** A fetch error that comes with a 404 response clears the identifier and
    nothing else. *)
Lemma read_not_found (dt : datadogV1.Downtime) (r : datadogV1.Response) (e : error) :
  datadogV1.GetDowntime client id = (dt, Some r, Some e) ->
  datadogV1.StatusCode r = 404 ->
  resourceDatadogDowntimeRead client d = (withId "" d, Ok tt).
Proof.
  intros Hfetch Hstatus.
  unfold resourceDatadogDowntimeRead, schema.bind, schema.get.
  rewrite Hid, Hfetch, Hstatus. reflexivity.
Qed.

(** A fetched downtime that carries a cancellation time does the same. *)
Lemma read_canceled (dt : datadogV1.Downtime) (httpresp : option datadogV1.Response)
    (at_ : Z) :
  datadogV1.GetDowntime client id = (dt, httpresp, None) ->
  datadogV1.Canceled dt = datadogV1.Value at_ ->
  resourceDatadogDowntimeRead client d = (withId "" d, Ok tt).
Proof.
  intros Hfetch Hcanceled.
  unfold resourceDatadogDowntimeRead, schema.bind, schema.get, datadogV1.GetCanceledOk.
  rewrite Hid, Hfetch, Hcanceled. reflexivity.
Qed.

(** Any other fetch error that comes with a response is translated and
    returned; the [ResourceData] is not touched. *)
Lemma read_error_with_response (dt : datadogV1.Downtime) (r : datadogV1.Response)
    (e : error) :
  datadogV1.GetDowntime client id = (dt, Some r, Some e) ->
  datadogV1.StatusCode r ≠ 404 ->
  resourceDatadogDowntimeRead client d
  = (d, Err (TranslateClientError e (datadogV1.Host r) "error getting downtime")).
Proof.
  intros Hfetch Hstatus.
  unfold resourceDatadogDowntimeRead, schema.bind, schema.get.
  rewrite Hid, Hfetch.
  destruct (Z.eqb_spec (datadogV1.StatusCode r) 404); [contradiction | reflexivity].
Qed.

(** A fetch error without a response: the host of the failed request is read
    through the nil response. *)
Lemma read_error_without_response (dt : datadogV1.Downtime) (e : error) :
  datadogV1.GetDowntime client id = (dt, None, Some e) ->
  resourceDatadogDowntimeRead client d = (d, Panic nil_dereference).
Proof.
  intros Hfetch.
  unfold resourceDatadogDowntimeRead, schema.bind, schema.get.
  rewrite Hid, Hfetch. reflexivity.
Qed.

(** The pre-fetch of the request builder has the same two outcomes. *)
Lemma build_prefetch_error_with_response (dt : datadogV1.Downtime)
    (r : datadogV1.Response) (e : error) :
  datadogV1.GetDowntime client id = (dt, Some r, Some e) ->
  buildDowntimeStruct d client true
  = Err (TranslateClientError e (datadogV1.Host r) "error getting downtime").
Proof.
  intros Hfetch. unfold buildDowntimeStruct. rewrite Hid, Hfetch. reflexivity.
Qed.

Lemma build_prefetch_error_without_response (dt : datadogV1.Downtime) (e : error) :
  datadogV1.GetDowntime client id = (dt, None, Some e) ->
  buildDowntimeStruct d client true = Panic nil_dereference.
Proof.
  intros Hfetch. unfold buildDowntimeStruct. rewrite Hid, Hfetch. reflexivity.
Qed.

End Read.

(** C3, on the code.  Once the identifier is parsed and the fetch has
    answered: an error that comes with a 404 response, and a fetched downtime
    that carries a cancellation time, clear the identifier, leave everything
    else and return success; an error that comes with any other response makes
    read return the translated error; but an error that comes without any
    response makes read panic, where the claim has it return an error. *)
Theorem resourceDatadogDowntimeRead_fetch_outcomes
    (client : datadogV1.APIClient) (d : schema.ResourceData) (id : Z)
    (dt : datadogV1.Downtime) (httpresp : option datadogV1.Response) (err : option error) :
  Go.strconv.ParseInt (schema.Id d) = Some id ->
  datadogV1.GetDowntime client id = (dt, httpresp, err) ->
  (forall e r, err = Some e -> httpresp = Some r -> datadogV1.StatusCode r = 404 ->
     resourceDatadogDowntimeRead client d = (withId "" d, Ok tt))
  /\ (forall at_, err = None -> datadogV1.Canceled dt = datadogV1.Value at_ ->
        resourceDatadogDowntimeRead client d = (withId "" d, Ok tt))
  /\ (forall e r, err = Some e -> httpresp = Some r -> datadogV1.StatusCode r ≠ 404 ->
        resourceDatadogDowntimeRead client d
        = (d, Err (TranslateClientError e (datadogV1.Host r) "error getting downtime")))
  /\ (forall e, err = Some e -> httpresp = None ->
        resourceDatadogDowntimeRead client d = (d, Panic nil_dereference)).
Proof.
  intros Hid Hfetch.
  split; [| split; [| split]].
  - intros e r -> -> Hstatus. exact (read_not_found client d id Hid dt r e Hfetch Hstatus).
  - intros at_ -> Hcanceled. exact (read_canceled client d id Hid dt httpresp at_ Hfetch Hcanceled).
  - intros e r -> -> Hstatus.
    exact (read_error_with_response client d id Hid dt r e Hfetch Hstatus).
  - intros e -> ->. exact (read_error_without_response client d id Hid dt e Hfetch).
Qed.

(** The four outcomes with the identifier ["5"]: a 404, a canceled downtime,
    a 500, and a connection that was refused. *)
Lemma resourceDatadogDowntimeRead_fetch_outcomes_witness :
  let d := resourceData "5" [("scope", schema.VList ["host:web-1"])] in
  let gone := ClientError "404 Not Found" in
  let broken := ClientError "500 Internal Server Error" in
  let unreachable := ClientError "dial tcp: connection refused" in
  let canceled :=
    datadogV1.mkDowntime (Some false) (datadogV1.Value 1700000500) (Some true)
      datadogV1.Unset (Some 5) None datadogV1.Unset None datadogV1.Unset
      (Some ["host:web-1"]) (Some 1700000000) None in
  let fetch answer := clientOf answer answer in
  resourceDatadogDowntimeRead (fetch (datadogV1.zeroDowntime, Some notFound, Some gone)) d
  = (withId "" d, Ok tt)
  /\ resourceDatadogDowntimeRead (fetch (canceled, Some ok200, None)) d
     = (withId "" d, Ok tt)
  /\ resourceDatadogDowntimeRead (fetch (datadogV1.zeroDowntime, Some serverError, Some broken)) d
     = (d, Err (TranslatedError "api.datadoghq.com" "error getting downtime" broken))
  /\ resourceDatadogDowntimeRead (fetch (datadogV1.zeroDowntime, None, Some unreachable)) d
     = (d, Panic nil_dereference).
Proof.
  intros d gone broken unreachable canceled fetch.
  split; [| split; [| split]].
  - apply (proj1 (resourceDatadogDowntimeRead_fetch_outcomes
                    (fetch (datadogV1.zeroDowntime, Some notFound, Some gone)) d 5
                    datadogV1.zeroDowntime (Some notFound) (Some gone) eq_refl eq_refl)
             gone notFound); reflexivity.
  - apply (proj1 (proj2 (resourceDatadogDowntimeRead_fetch_outcomes
                           (fetch (canceled, Some ok200, None)) d 5
                           canceled (Some ok200) None eq_refl eq_refl))
             1700000500); reflexivity.
  - apply (proj1 (proj2 (proj2 (resourceDatadogDowntimeRead_fetch_outcomes
                                  (fetch (datadogV1.zeroDowntime, Some serverError, Some broken))
                                  d 5 datadogV1.zeroDowntime (Some serverError) (Some broken)
                                  eq_refl eq_refl)))
             broken serverError); [reflexivity | reflexivity | discriminate].
  - apply (proj2 (proj2 (proj2 (resourceDatadogDowntimeRead_fetch_outcomes
                                  (fetch (datadogV1.zeroDowntime, None, Some unreachable))
                                  d 5 datadogV1.zeroDowntime None (Some unreachable)
                                  eq_refl eq_refl)))
             unreachable); reflexivity.
Defined.

(** C10, on the code.  When the fetch fails without an HTTP response, read
    and the update-mode pre-fetch of the request builder both panic on the
    nil response, where the claim has them return a normalized error.  When
    the failed fetch has a response, the pre-fetch returns the translated
    error, and so does read unless the status is 404. *)
Theorem client_error_without_response_panics
    (client : datadogV1.APIClient) (d : schema.ResourceData) (id : Z)
    (dt : datadogV1.Downtime) (httpresp : option datadogV1.Response) (e : error) :
  Go.strconv.ParseInt (schema.Id d) = Some id ->
  datadogV1.GetDowntime client id = (dt, httpresp, Some e) ->
  match httpresp with
  | None =>
      resourceDatadogDowntimeRead client d = (d, Panic nil_dereference)
      /\ buildDowntimeStruct d client true = Panic nil_dereference
  | Some r =>
      (datadogV1.StatusCode r ≠ 404 ->
       resourceDatadogDowntimeRead client d
       = (d, Err (TranslateClientError e (datadogV1.Host r) "error getting downtime")))
      /\ buildDowntimeStruct d client true
         = Err (TranslateClientError e (datadogV1.Host r) "error getting downtime")
  end.
Proof.
  intros Hid Hfetch. destruct httpresp as [r |].
  - split.
    + intros Hstatus. exact (read_error_with_response client d id Hid dt r e Hfetch Hstatus).
    + exact (build_prefetch_error_with_response client d id Hid dt r e Hfetch).
  - split.
    + exact (read_error_without_response client d id Hid dt e Hfetch).
    + exact (build_prefetch_error_without_response client d id Hid dt e Hfetch).
Qed.

(** A refused connection: no response, and both operations panic. *)
Lemma client_error_without_response_panics_witness :
  let d := resourceData "5" [("scope", schema.VList ["host:web-1"])] in
  let unreachable := ClientError "dial tcp: connection refused" in
  let silent := clientOf (datadogV1.zeroDowntime, None, Some unreachable)
                  (datadogV1.zeroDowntime, None, Some unreachable) in
  resourceDatadogDowntimeRead silent d = (d, Panic nil_dereference)
  /\ buildDowntimeStruct d silent true = Panic nil_dereference.
Proof.
  intros d unreachable silent.
  exact (client_error_without_response_panics silent d 5 datadogV1.zeroDowntime None
           unreachable eq_refl eq_refl).
Defined.

(* ===================================================================== *)
(** ** Update *)
(* ===================================================================== *)

Lemma writeAll_id (ws : list (string * schema.value)) (d : schema.ResourceData) :
  schema.Id (writeAll ws d).1 = schema.Id d.
Proof. rewrite writeAll_run. reflexivity. Qed.

Lemma updateDowntimeState_id (dt : datadogV1.Downtime) (d : schema.ResourceData) :
  schema.Id (updateDowntimeState dt d).1 = schema.Id d.
Proof. rewrite updateDowntimeState_writeAll. apply writeAll_id. Qed.

(** C6, on the code.  A successful update sent a request that carries the
    parsed local identifier, as the claim says.  It leaves as local
    identifier the decimal form of that same number, which is the identifier
    of the request and not the one of the downtime the remote operation
    returned, where the claim has the returned one. *)
Theorem resourceDatadogDowntimeUpdate_identifier
    (client : datadogV1.APIClient) (d d' : schema.ResourceData) :
  resourceDatadogDowntimeUpdate client d = (d', Ok tt) ->
  exists (req updatedDowntime : datadogV1.Downtime) (id : Z)
         (httpresp : option datadogV1.Response),
    buildDowntimeStruct d client true = Ok req
    /\ Go.strconv.ParseInt (schema.Id d) = Some id
    /\ datadogV1.UpdateDowntime client id (datadogV1.SetId id req)
       = (updatedDowntime, httpresp, None)
    /\ datadogV1.Id (datadogV1.SetId id req) = Some id
    /\ schema.Id d' = Go.strconv.FormatInt id.
Proof.
  unfold resourceDatadogDowntimeUpdate, schema.bind at 1, schema.get.
  destruct (buildDowntimeStruct d client true) as [req | e | why]; try discriminate.
  destruct (Go.strconv.ParseInt (schema.Id d)) as [id |]; try discriminate.
  destruct (datadogV1.UpdateDowntime client id (datadogV1.SetId id req))
    as [[updatedDowntime httpresp] [e |]] eqn:Hupdate.
  - unfold schema.bind, schema.deref.
    destruct httpresp; discriminate.
  - intros Hrun. exists req, updatedDowntime, id, httpresp.
    repeat split; try assumption.
    unfold schema.bind, schema.SetId in Hrun. simpl in Hrun.
    pose proof (updateDowntimeState_id updatedDowntime
                  (withId (Go.strconv.FormatInt id) d)) as Hkeep.
    unfold withId in Hkeep.
    destruct (updateDowntimeState updatedDowntime _) as [d1 r].
    simpl in Hkeep. injection Hrun as -> _. exact Hkeep.
Qed.

(** The local identifier is ["5"] and the remote update, asked to update the
    downtime 5 with a request whose identifier is 5, answers with a downtime
    whose identifier is 9 (the downtime was replaced).  The update succeeds
    and the local identifier is still ["5"]. *)
Lemma resourceDatadogDowntimeUpdate_identifier_witness :
  let d := resourceData "5" [("scope", schema.VList ["host:web-1"]);
                             ("message", schema.VString "back at noon")] in
  let current := remoteDowntime 5 None in
  let replaced := remoteDowntime 9 None in
  let client :=
    datadogV1.mkClient
      (λ _, (current, Some ok200, None))
      (λ _, (replaced, Some ok200, None))
      (λ id req,
         if bool_decide (datadogV1.Id req = Some 5) && (id =? 5)
         then (replaced, Some ok200, None)
         else (datadogV1.zeroDowntime, Some serverError, Some (ClientError "unexpected request")))
      (λ _, (Some ok200, None)) in
  let d' := (resourceDatadogDowntimeUpdate client d).1 in
  resourceDatadogDowntimeUpdate client d = (d', Ok tt)
  /\ datadogV1.GetId replaced = 9
  /\ schema.Id d' = "5"
  /\ schema.Id d' ≠ Go.strconv.FormatInt (datadogV1.GetId replaced).
Proof.
  intros d current replaced client d'.
  assert (Hrun : resourceDatadogDowntimeUpdate client d = (d', Ok tt))
    by (vm_compute; reflexivity).
  destruct (resourceDatadogDowntimeUpdate_identifier client d d' Hrun)
    as (req & updatedDowntime & id & httpresp & _ & Hparse & _ & _ & Hid).
  assert (Hfive : id = 5) by (vm_compute in Hparse; congruence).
  subst id. rewrite Hid.
  split; [exact Hrun |]. split; [reflexivity |]. split; [reflexivity |].
  vm_compute. discriminate.
Defined.

(* ===================================================================== *)
(** ** State projection *)
(* ===================================================================== *)

(** C7.  When the write of a projected field is refused, and the writes of
    the fields before it were accepted, the projection returns that refusal,
    the attributes hold the writes made before it and nothing else, and the
    log shows that the fields after it were not attempted. *)
Theorem updateDowntimeState_stops_at_first_failure
    (dt : datadogV1.Downtime) (d : schema.ResourceData)
    (pre post : list (string * schema.value)) (k : string) (v : schema.value) (e : error) :
  projectionWrites dt = pre ++ (k, v) :: post ->
  Forall (λ kv, schema.rd_writer d kv.1 kv.2 = None) pre ->
  schema.rd_writer d k v = Some e ->
  updateDowntimeState dt d
  = (schema.mkResourceData (schema.rd_id d) (written pre (schema.rd_attrs d))
       (schema.rd_changed d) (schema.rd_writer d)
       (schema.rd_log d ++ map fst pre ++ [k]),
     Err e).
Proof.
  intros Hws Hpre Hk.
  rewrite updateDowntimeState_writeAll, writeAll_run, Hws.
  destruct (first_refusal (schema.rd_writer d) pre post k v e Hpre Hk) as (-> & -> & ->).
  unfold afterWrites. now rewrite map_app.
Qed.

(** The writer refuses [message]: the three fields before it are written,
    [message] is attempted, and none of the six after it is. *)
Lemma updateDowntimeState_stops_at_first_failure_witness :
  let dt := remoteDowntime 5 (Some ["team:web"]) in
  let d := schema.mkResourceData "5" ∅ (λ _, false) (refuse "message") [] in
  updateDowntimeState dt d
  = (schema.mkResourceData "5"
       (written [("active", schema.VBool true); ("disabled", schema.VBool false);
                 ("end", schema.VInt 1700003600)] ∅)
       (λ _, false) (refuse "message") ["active"; "disabled"; "end"; "message"],
     Err (SetError "message" "invalid value")).
Proof.
  intros dt d.
  apply (updateDowntimeState_stops_at_first_failure dt d
           [("active", schema.VBool true); ("disabled", schema.VBool false);
            ("end", schema.VInt 1700003600)]
           [("timezone", schema.VString "UTC");
            ("scope", schema.VList ["host:web-1"; "env:prod"]);
            ("monitor_tags", schema.VList ["team:web"]);
            ("start", schema.VInt 1700000000)]
           "message" (schema.VString "  back at noon ")
           (SetError "message" "invalid value")).
  - reflexivity.
  - repeat constructor.
  - reflexivity.
Defined.

(** Without a refusal every projected field is written. *)
Lemma updateDowntimeState_success (dt : datadogV1.Downtime) (d d' : schema.ResourceData) :
  updateDowntimeState dt d = (d', Ok tt) ->
  d' = afterWrites (projectionWrites dt) (projectionWrites dt) d.
Proof.
  rewrite updateDowntimeState_writeAll, writeAll_run.
  destruct (refusal (schema.rd_writer d) (projectionWrites dt)) eqn:Hrefusal;
    [discriminate |].
  destruct (accepted_all _ _ Hrefusal) as [-> ->]. congruence.
Qed.

Lemma projectionWrites_sentinel (dt : datadogV1.Downtime) :
  datadogV1.GetMonitorTags dt = ["*"] -> "monitor_tags" ∉ map fst (projectionWrites dt).
Proof.
  intros Htags. unfold projectionWrites.
  destruct (decide (datadogV1.GetMonitorTags dt = ["*"])); [| contradiction].
  destruct (datadogV1.MonitorId dt), (datadogV1.Recurrence dt); simpl;
    rewrite !not_elem_of_cons; repeat split; try discriminate; apply not_elem_of_nil.
Qed.

Lemma projectionWrites_monitor_tags (dt : datadogV1.Downtime) :
  datadogV1.GetMonitorTags dt ≠ ["*"] ->
  lastWrite "monitor_tags" (projectionWrites dt)
  = Some (schema.VList (datadogV1.GetMonitorTags dt)).
Proof.
  intros Htags. unfold projectionWrites.
  destruct (decide (datadogV1.GetMonitorTags dt = ["*"])); [contradiction |].
  destruct (datadogV1.MonitorId dt), (datadogV1.Recurrence dt); reflexivity.
Qed.

Lemma projectionWrites_message (dt : datadogV1.Downtime) :
  lastWrite "message" (projectionWrites dt)
  = Some (schema.VString (datadogV1.GetMessage dt)).
Proof.
  unfold projectionWrites.
  destruct (decide (datadogV1.GetMonitorTags dt = ["*"])),
    (datadogV1.MonitorId dt), (datadogV1.Recurrence dt); reflexivity.
Qed.

Lemma projectionWrites_scope (dt : datadogV1.Downtime) :
  lastWrite "scope" (projectionWrites dt)
  = Some (schema.VList (datadogV1.GetScope dt)).
Proof.
  unfold projectionWrites.
  destruct (decide (datadogV1.GetMonitorTags dt = ["*"])),
    (datadogV1.MonitorId dt), (datadogV1.Recurrence dt); reflexivity.
Qed.

Lemma prefix_keys (ws pre rest : list (string * schema.value)) (k : string) :
  ws = pre ++ rest -> k ∉ map fst ws -> k ∉ map fst pre.
Proof.
  intros -> Hnot Hin. apply Hnot. rewrite map_app. apply elem_of_app. now left.
Qed.

(** C4.  When the remote [monitor_tags] is exactly the list of the single
    element ["*"], the projection never writes the attribute: it keeps its
    value and no write of it is attempted, whatever else happens.  For any
    other remote value (the empty list and the lists that hold ["*"] among
    other tags included), a projection that succeeds has written the remote
    list as it is, and the attribute reads back as the set of its elements. *)
Theorem updateDowntimeState_monitor_tags (dt : datadogV1.Downtime) (d : schema.ResourceData) :
  (datadogV1.GetMonitorTags dt = ["*"] ->
   let d' := (updateDowntimeState dt d).1 in
   schema.rd_attrs d' !! "monitor_tags" = schema.rd_attrs d !! "monitor_tags"
   /\ exists attempts,
        schema.rd_log d' = schema.rd_log d ++ attempts /\ "monitor_tags" ∉ attempts)
  /\ (datadogV1.GetMonitorTags dt ≠ ["*"] ->
      forall d', updateDowntimeState dt d = (d', Ok tt) ->
        schema.rd_attrs d' !! "monitor_tags"
        = Some (schema.VList (datadogV1.GetMonitorTags dt))
        /\ "monitor_tags" ∈ schema.rd_log d'
        /\ schema.as_set (schema.Get d' "monitor_tags")
           = list_to_set (datadogV1.GetMonitorTags dt)).
Proof.
  split.
  - intros Htags d'. subst d'.
    rewrite updateDowntimeState_writeAll, writeAll_run. simpl.
    pose proof (projectionWrites_sentinel dt Htags) as Hnot.
    destruct (accepted_prefix (schema.rd_writer d) (projectionWrites dt)) as [r1 H1].
    destruct (attempted_prefix (schema.rd_writer d) (projectionWrites dt)) as [r2 H2].
    split.
    + rewrite written_lookup, lastWrite_absent; [reflexivity |].
      exact (prefix_keys _ _ _ _ H1 Hnot).
    + eexists. split; [reflexivity |]. exact (prefix_keys _ _ _ _ H2 Hnot).
  - intros Htags d' Hrun.
    apply updateDowntimeState_success in Hrun. subst d'.
    assert (Hread : written (projectionWrites dt) (schema.rd_attrs d) !! "monitor_tags"
                    = Some (schema.VList (datadogV1.GetMonitorTags dt))).
    { now rewrite written_lookup, projectionWrites_monitor_tags. }
    split; [exact Hread |]. split.
    + simpl. apply elem_of_app. right.
      exact (lastWrite_elem _ _ _ (projectionWrites_monitor_tags dt Htags)).
    + unfold schema.Get.
      rewrite readField_top, afterWrites_attrs, Hread by reflexivity. reflexivity.
Qed.

(** The remote values the specification names: the sentinel is not written,
    the empty list and a list that holds the sentinel among other tags are. *)
Lemma updateDowntimeState_monitor_tags_witness :
  let d := resourceData "5" [("monitor_tags", schema.VList ["team:web"])] in
  let projected tags := (updateDowntimeState (remoteDowntime 5 (Some tags)) d).1 in
  schema.rd_attrs (projected ["*"]) !! "monitor_tags" = Some (schema.VList ["team:web"])
  /\ schema.rd_attrs (projected []) !! "monitor_tags" = Some (schema.VList [])
  /\ schema.rd_attrs (projected ["*"; "foo"]) !! "monitor_tags"
     = Some (schema.VList ["*"; "foo"]).
Proof.
  intros d projected.
  split; [| split].
  - exact (proj1 (proj1 (updateDowntimeState_monitor_tags
                           (remoteDowntime 5 (Some ["*"])) d) eq_refl)).
  - refine (proj1 (proj2 (updateDowntimeState_monitor_tags
                            (remoteDowntime 5 (Some [])) d) _ _ _)).
    + discriminate.
    + vm_compute. reflexivity.
  - refine (proj1 (proj2 (updateDowntimeState_monitor_tags
                            (remoteDowntime 5 (Some ["*"; "foo"])) d) _ _ _)).
    + discriminate.
    + vm_compute. reflexivity.
Defined.

(* ===================================================================== *)
(** ** The request builder *)
(* ===================================================================== *)

(** The fields the builder copies, read off a request it returned. *)
Lemma buildDowntimeStruct_fields
    (d : schema.ResourceData) (client : datadogV1.APIClient) (updating : bool)
    (req : datadogV1.Downtime) :
  buildDowntimeStruct d client updating = Ok req ->
  datadogV1.Message req
  = (λ attr, Go.strings.TrimSpace (schema.as_string attr)) <$> schema.GetOk d "message"
  /\ datadogV1.MonitorId req
     = match schema.GetOk d "monitor_id" with
       | Some attr => datadogV1.Value (schema.as_int attr)
       | None => datadogV1.Unset
       end
  /\ datadogV1.Scope req = Some (schema.as_list (schema.Get d "scope"))
  /\ datadogV1.MonitorTags req
     = Some (schema.List_ (schema.as_set (schema.Get d "monitor_tags")))
  /\ datadogV1.Timezone req = schema.as_string <$> schema.GetOk d "timezone".
Proof.
  unfold buildDowntimeStruct, result_bind.
  match goal with
  | |- match ?prefetch with _ => _ end = _ -> _ =>
      destruct prefetch as [[currentStart currentEnd] | e | why]; try discriminate
  end.
  destruct (getDowntimeBoundaryTimestamp d "end_date" "end") as [endValue endAttrName].
  destruct (getDowntimeBoundaryTimestamp d "start_date" "start") as [startValue startAttrName].
  intros Hreq. injection Hreq as <-.
  destruct (downtimeBoundaryNeedsApply d endAttrName currentEnd endValue updating),
    (downtimeBoundaryNeedsApply d startAttrName currentStart startValue updating),
    (schema.GetOk d "message"), (schema.GetOk d "monitor_id"),
    (schema.GetOk d "recurrence"), (schema.GetOk d "timezone");
    repeat split; reflexivity.
Qed.

Lemma GetOk_unset_as_set (d : schema.ResourceData) (k : string) :
  schema.GetOk d k = None -> schema.List_ (schema.as_set (schema.Get d k)) = [].
Proof.
  unfold schema.GetOk, schema.Get, schema.List_.
  destruct (schema.readField d k) as [v |]; simpl.
  - destruct v as [| b | i | s | l | s | l]; simpl; try (intros _; apply elements_empty).
    + destruct l; [intros _; apply elements_empty | discriminate].
    + case_bool_decide as Hs; [intros _; rewrite Hs; apply elements_empty | discriminate].
  - intros _. apply elements_empty.
Qed.

(** C5, as stated, does not hold: a configuration that leaves [monitor_tags]
    unset gets a request whose [MonitorTags] field is set, to the empty
    list. *)
Lemma buildDowntimeStruct_sends_unset_monitor_tags :
  ¬ (forall (d : schema.ResourceData) (client : datadogV1.APIClient) (updating : bool)
            (req : datadogV1.Downtime),
        schema.GetOk d "monitor_tags" = None ->
        buildDowntimeStruct d client updating = Ok req ->
        datadogV1.MonitorTags req = None).
Proof.
  intros H.
  pose (d := resourceData "" [("scope", schema.VList ["host:web-1"]);
                               ("start", schema.VInt 1700000000)]).
  pose (client := clientOf (datadogV1.zeroDowntime, Some ok200, None)
                    (datadogV1.zeroDowntime, Some ok200, None)).
  destruct (buildDowntimeStruct d client false) as [req | e | why] eqn:Hbuild;
    vm_compute in Hbuild; try discriminate Hbuild.
  specialize (H d client false req eq_refl).
  assert (Hnone : datadogV1.MonitorTags req = None).
  { apply H. vm_compute. exact Hbuild. }
  injection Hbuild as <-. discriminate Hnone.
Qed.

(** C5, amended.  A request the builder returns always carries the
    [monitor_tags] field: the configured tags, and the empty list when the
    attribute is unset.  Each of [message], [monitor_id] and [timezone] is in
    the request exactly when it is set in the configuration: [message]
    trimmed, the other two as they are. *)
Theorem buildDowntimeStruct_optional_fields
    (d : schema.ResourceData) (client : datadogV1.APIClient) (updating : bool)
    (req : datadogV1.Downtime) :
  buildDowntimeStruct d client updating = Ok req ->
  datadogV1.MonitorTags req
  = Some (schema.List_ (schema.as_set (schema.Get d "monitor_tags")))
  /\ (schema.GetOk d "monitor_tags" = None -> datadogV1.MonitorTags req = Some [])
  /\ datadogV1.Message req
     = (λ attr, Go.strings.TrimSpace (schema.as_string attr)) <$> schema.GetOk d "message"
  /\ datadogV1.MonitorId req
     = match schema.GetOk d "monitor_id" with
       | Some attr => datadogV1.Value (schema.as_int attr)
       | None => datadogV1.Unset
       end
  /\ datadogV1.Timezone req = schema.as_string <$> schema.GetOk d "timezone".
Proof.
  intros Hbuild.
  destruct (buildDowntimeStruct_fields d client updating req Hbuild)
    as (Hmessage & Hid & _ & Htags & Hzone).
  repeat split; try assumption.
  intros Hunset. rewrite Htags. f_equal. now apply GetOk_unset_as_set.
Qed.

(** A create with a message to trim, a time zone, and neither [monitor_id]
    nor [monitor_tags]. *)
Lemma buildDowntimeStruct_optional_fields_witness :
  let d := resourceData "" [("scope", schema.VList ["host:web-1"]);
                            ("message", schema.VString "  back at noon ");
                            ("timezone", schema.VString "UTC");
                            ("start", schema.VInt 1700000000)] in
  let req :=
    datadogV1.mkDowntime None datadogV1.Unset None datadogV1.Unset None
      (Some "back at noon") datadogV1.Unset (Some []) datadogV1.Unset
      (Some ["host:web-1"]) (Some 1700000000) (Some "UTC") in
  buildDowntimeStruct d (clientOf (req, Some ok200, None) (req, Some ok200, None)) false
  = Ok req
  /\ datadogV1.MonitorTags req = Some []
  /\ datadogV1.Message req = Some "back at noon"
  /\ datadogV1.MonitorId req = datadogV1.Unset
  /\ datadogV1.Timezone req = Some "UTC".
Proof.
  intros d req.
  assert (Hbuild : buildDowntimeStruct d
                     (clientOf (req, Some ok200, None) (req, Some ok200, None)) false
                   = Ok req) by (vm_compute; reflexivity).
  split; [exact Hbuild |].
  destruct (buildDowntimeStruct_optional_fields d _ false req Hbuild)
    as (_ & Htags & Hmessage & Hid & Hzone).
  split; [apply Htags; reflexivity |].
  split; [exact Hmessage |].
  split; [exact Hid | exact Hzone].
Defined.

(* ===================================================================== *)
(** ** Projection followed by a rebuild *)
(* ===================================================================== *)

Lemma projected_message (remote : datadogV1.Downtime) (d : schema.ResourceData) :
  let d' := afterWrites (projectionWrites remote) (projectionWrites remote) d in
  (λ attr, Go.strings.TrimSpace (schema.as_string attr)) <$> schema.GetOk d' "message"
  = if String.eqb (datadogV1.GetMessage remote) "" then None
    else Some (Go.strings.TrimSpace (datadogV1.GetMessage remote)).
Proof.
  intros d'. unfold schema.GetOk. subst d'.
  rewrite readField_top, afterWrites_attrs, written_lookup, projectionWrites_message
    by reflexivity.
  simpl. now destruct (String.eqb (datadogV1.GetMessage remote) "").
Qed.

Lemma projected_scope (remote : datadogV1.Downtime) (d : schema.ResourceData) :
  let d' := afterWrites (projectionWrites remote) (projectionWrites remote) d in
  schema.as_list (schema.Get d' "scope") = datadogV1.GetScope remote.
Proof.
  intros d'. unfold schema.Get. subst d'.
  now rewrite readField_top, afterWrites_attrs, written_lookup, projectionWrites_scope
    by reflexivity.
Qed.

Lemma projected_monitor_tags (remote : datadogV1.Downtime) (d : schema.ResourceData) :
  let d' := afterWrites (projectionWrites remote) (projectionWrites remote) d in
  schema.Get d' "monitor_tags"
  = if decide (datadogV1.GetMonitorTags remote = ["*"])
    then schema.Get d "monitor_tags"
    else schema.VList (datadogV1.GetMonitorTags remote).
Proof.
  intros d'. unfold schema.Get. subst d'.
  rewrite !readField_top, afterWrites_attrs, written_lookup by reflexivity.
  destruct (decide (datadogV1.GetMonitorTags remote = ["*"])) as [Htags | Htags].
  - now rewrite lastWrite_absent by now apply projectionWrites_sentinel.
  - now rewrite projectionWrites_monitor_tags.
Qed.

(** C8, as stated, does not hold: a remote downtime whose [monitor_tags] is
    the sentinel is projected without that field, so the rebuilt request does
    not carry it. *)
Lemma projection_then_rebuild_loses_sentinel :
  ¬ (forall (remote : datadogV1.Downtime) (d d' : schema.ResourceData)
            (client : datadogV1.APIClient) (req : datadogV1.Downtime),
        updateDowntimeState remote d = (d', Ok tt) ->
        buildDowntimeStruct d' client true = Ok req ->
        datadogV1.GetMessage req = Go.strings.TrimSpace (datadogV1.GetMessage remote)
        /\ datadogV1.GetScope req = datadogV1.GetScope remote
        /\ forall tag : string,
             tag ∈ datadogV1.GetMonitorTags req <-> tag ∈ datadogV1.GetMonitorTags remote).
Proof.
  intros H.
  pose (remote := remoteDowntime 5 (Some ["*"])).
  pose (d := resourceData "5" []).
  pose (client := clientOf (remote, Some ok200, None) (remote, Some ok200, None)).
  pose (d' := (updateDowntimeState remote d).1).
  pose (req := match buildDowntimeStruct d' client true with
               | Ok r => r
               | _ => datadogV1.zeroDowntime
               end).
  assert (Hproject : updateDowntimeState remote d = (d', Ok tt))
    by (vm_compute; reflexivity).
  assert (Hbuild : buildDowntimeStruct d' client true = Ok req)
    by (vm_compute; reflexivity).
  destruct (H remote d d' client req Hproject Hbuild) as (_ & _ & Htags).
  assert (Hin : "*" ∈ datadogV1.GetMonitorTags req)
    by (apply Htags; apply list_elem_of_here).
  vm_compute in Hin. inversion Hin.
Qed.

(** C8, amended.  After a projection that succeeds, a request rebuilt in
    update mode carries the remote message trimmed and the remote scope in
    the same order.  When the remote [monitor_tags] is not the sentinel, the
    request's tags are the remote tags as a set (each once); when it is the
    sentinel, the request's tags are those the configuration held before the
    projection. *)
Theorem projection_then_rebuild
    (remote : datadogV1.Downtime) (d d' : schema.ResourceData)
    (client : datadogV1.APIClient) (req : datadogV1.Downtime) :
  updateDowntimeState remote d = (d', Ok tt) ->
  buildDowntimeStruct d' client true = Ok req ->
  datadogV1.GetMessage req = Go.strings.TrimSpace (datadogV1.GetMessage remote)
  /\ datadogV1.GetScope req = datadogV1.GetScope remote
  /\ (datadogV1.GetMonitorTags remote ≠ ["*"] ->
      NoDup (datadogV1.GetMonitorTags req)
      /\ forall tag : string,
           tag ∈ datadogV1.GetMonitorTags req <-> tag ∈ datadogV1.GetMonitorTags remote)
  /\ (datadogV1.GetMonitorTags remote = ["*"] ->
      datadogV1.GetMonitorTags req
      = schema.List_ (schema.as_set (schema.Get d "monitor_tags"))).
Proof.
  intros Hproject Hbuild.
  apply updateDowntimeState_success in Hproject. subst d'.
  destruct (buildDowntimeStruct_fields _ client true req Hbuild)
    as (Hmessage & _ & Hscope & Htags & _).
  rewrite projected_message in Hmessage.
  rewrite projected_scope in Hscope.
  rewrite projected_monitor_tags in Htags.
  assert (Hm : datadogV1.GetMessage req
               = Go.strings.TrimSpace (datadogV1.GetMessage remote)).
  { unfold datadogV1.GetMessage at 1. rewrite Hmessage.
    destruct (String.eqb_spec (datadogV1.GetMessage remote) "") as [Heq | _];
      [rewrite Heq |]; reflexivity. }
  assert (Hs : datadogV1.GetScope req = datadogV1.GetScope remote).
  { unfold datadogV1.GetScope at 1. now rewrite Hscope. }
  assert (Ht : datadogV1.GetMonitorTags req
               = schema.List_
                   (schema.as_set
                      (if decide (datadogV1.GetMonitorTags remote = ["*"])
                       then schema.Get d "monitor_tags"
                       else schema.VList (datadogV1.GetMonitorTags remote)))).
  { unfold datadogV1.GetMonitorTags at 1. now rewrite Htags. }
  split; [exact Hm |]. split; [exact Hs |]. rewrite Ht. split.
  - intros Hne.
    destruct (decide (datadogV1.GetMonitorTags remote = ["*"])); [contradiction |].
    unfold schema.List_. cbn [schema.as_set]. split.
    + apply NoDup_elements.
    + intros tag. now rewrite elem_of_elements, elem_of_list_to_set.
  - intros Heq.
    destruct (decide (datadogV1.GetMonitorTags remote = ["*"])); [reflexivity | contradiction].
Qed.

(** A remote downtime with two tags, one of them twice, projected into a
    fresh state and rebuilt. *)
Lemma projection_then_rebuild_witness :
  let remote := remoteDowntime 5 (Some ["team:web"; "tier:1"; "team:web"]) in
  let d := resourceData "5" [] in
  let client := clientOf (remote, Some ok200, None) (remote, Some ok200, None) in
  let d' := (updateDowntimeState remote d).1 in
  let req := match buildDowntimeStruct d' client true with
             | Ok r => r
             | _ => datadogV1.zeroDowntime
             end in
  datadogV1.GetMessage req = "back at noon"
  /\ datadogV1.GetScope req = ["host:web-1"; "env:prod"]
  /\ forall tag : string,
       tag ∈ datadogV1.GetMonitorTags req <-> tag ∈ ["team:web"; "tier:1"; "team:web"].
Proof.
  intros remote d client d' req.
  assert (Hproject : updateDowntimeState remote d = (d', Ok tt))
    by (vm_compute; reflexivity).
  assert (Hbuild : buildDowntimeStruct d' client true = Ok req)
    by (vm_compute; reflexivity).
  destruct (projection_then_rebuild remote d d' client req Hproject Hbuild)
    as (Hmessage & Hscope & Htags & _).
  split; [exact Hmessage |].
  split; [exact Hscope |].
  apply Htags. discriminate.
Defined.

(* ===================================================================== *)
(** ** Conflicting attributes *)
(* ===================================================================== *)

Section Validation.

Import validation.

Variable c : list (string * Config).

Lemma conflictingKey_found (keys : list string) (ck : string) (v : Config) :
  In ck keys -> Get c ck = Some v -> exists key, conflictingKey c keys = Some key.
Proof.
  induction keys as [| key keys IH]; simpl; [contradiction |].
  intros [-> | Hin] Hget.
  - rewrite Hget. eauto.
  - destruct (Get c key); eauto.
Qed.

(** An attribute that is set, may be set, and declares a key the
    configuration holds a value for, is an error. *)
Lemma validate_conflict (k : string) (s : Schema) (ck : string) (raw v : Config) :
  Get c k = Some raw ->
  Required s || Optional s = true ->
  In ck (ConflictsWith s) ->
  Get c ck = Some v ->
  validate k s c ≠ [].
Proof.
  destruct s as [ty required optional computed maxItems conflictsWith elem].
  simpl. intros Hk Hmay Hin Hck. rewrite Hk.
  unfold validateConflictingAttributes. simpl.
  destruct (conflictingKey_found conflictsWith ck v Hin Hck) as [key ->].
  destruct required, optional; simpl in *; discriminate.
Qed.

Lemma Validate_error (sm : list (string * Schema)) (k : string) (s : Schema) :
  In (k, s) sm -> validate k s c ≠ [] -> Validate sm c ≠ [].
Proof.
  intros Hin Herr Hnil. unfold Validate in Hnil.
  apply Herr. destruct (validate k s c) as [| e es] eqn:Hv; [reflexivity |].
  assert (He : In e (flat_map (λ '(k, s), validate k s c) sm)).
  { apply in_flat_map. exists (k, s). split; [assumption |]. rewrite Hv. now left. }
  rewrite Hnil in He. contradiction.
Qed.

(** The pairs declared on attributes of the resource itself: a
    configuration that holds a value for both members is rejected. *)
Lemma top_level_conflicts_rejected (v1 v2 : Config) :
  (Get c "start_date" = Some v1 -> Get c "start" = Some v2 -> rejected c)
  /\ (Get c "end_date" = Some v1 -> Get c "end" = Some v2 -> rejected c)
  /\ (Get c "monitor_id" = Some v1 -> Get c "monitor_tags" = Some v2 -> rejected c).
Proof.
  unfold rejected, resourceDatadogDowntime.
  split; [| split]; intros H1 H2.
  - apply (Validate_error _ "start_date"
             (withOptional (withConflictsWith ["start"] (ofType TypeString)))).
    + simpl. tauto.
    + apply (validate_conflict _ _ "start" v1 v2); simpl; auto.
  - apply (Validate_error _ "end_date"
             (withOptional (withConflictsWith ["end"] (ofType TypeString)))).
    + simpl. tauto.
    + apply (validate_conflict _ _ "end" v1 v2); simpl; auto.
  - apply (Validate_error _ "monitor_id"
             (withConflictsWith ["monitor_tags"] (withOptional (ofType TypeInt)))).
    + simpl. tauto.
    + apply (validate_conflict _ _ "monitor_tags" v1 v2); simpl; auto.
Qed.

End Validation.

(** C9, on the code.  In a configuration that has recurrence blocks, none
    of the keys the sub-fields declare in [ConflictsWith]
    ([recurrence.until_occurrences], [recurrence.until_date],
    [recurrence.period], [recurrence.week_days]) names a value: [recurrence]
    is a list, which is entered by an index only, and the sub-fields live at
    [recurrence.0.<name>].  So no conflict between sub-fields is ever found,
    where the claim has the configurations that set such a pair rejected. *)
Theorem recurrence_conflict_keys_name_nothing
    (c : list (string * validation.Config)) (blocks : list validation.Config)
    (k : string) (s : validation.Schema) :
  validation.assoc "recurrence" c = Some (validation.CList blocks) ->
  In (k, s) validation.recurrenceSchema ->
  validation.conflictingKey c (validation.ConflictsWith s) = None.
Proof.
  intros Hblocks Hin.
  unfold validation.recurrenceSchema in Hin. simpl in Hin.
  destruct Hin as [Heq | [Heq | [Heq | [Heq | [Heq | [Heq | []]]]]]];
    injection Heq as <- <-; simpl; unfold validation.Get; simpl;
    rewrite ?Hblocks; reflexivity.
Qed.

(** Two configurations that set conflicting sub-fields, [until_date] with
    [until_occurrences] and [rrule] with [period]: the declared keys name
    nothing and both configurations are accepted.  Had the key carried the
    index of the block, the conflict would be found. *)
Lemma recurrence_conflict_keys_name_nothing_witness :
  let block fields :=
    [ ("scope", validation.CList [validation.CPrim "host:web-1"]);
      ("recurrence", validation.CList [validation.CMap fields]) ] in
  let until_both :=
    block [ ("type", validation.CPrim "days");
            ("period", validation.CPrim "1");
            ("until_date", validation.CPrim "1700086400");
            ("until_occurrences", validation.CPrim "3") ] in
  let rrule_and_period :=
    block [ ("type", validation.CPrim "rrule");
            ("period", validation.CPrim "1");
            ("rrule", validation.CPrim "FREQ=MONTHLY;INTERVAL=1") ] in
  (validation.Get until_both "recurrence.0.until_date"
   = Some (validation.CPrim "1700086400")
   /\ validation.Get until_both "recurrence.0.until_occurrences"
      = Some (validation.CPrim "3")
   /\ validation.conflictingKey until_both ["recurrence.until_occurrences"] = None
   /\ validation.Validate validation.resourceDatadogDowntime until_both = [])
  /\ (validation.Get rrule_and_period "recurrence.0.rrule"
      = Some (validation.CPrim "FREQ=MONTHLY;INTERVAL=1")
      /\ validation.Get rrule_and_period "recurrence.0.period"
         = Some (validation.CPrim "1")
      /\ validation.conflictingKey rrule_and_period
           ["recurrence.period"; "recurrence.until_date";
            "recurrence.until_occurrences"; "recurrence.week_days"] = None
      /\ validation.Validate validation.resourceDatadogDowntime rrule_and_period = [])
  /\ validation.validateConflictingAttributes "recurrence.0.until_date"
       (validation.withConflictsWith ["recurrence.0.until_occurrences"]
          (validation.withOptional (validation.ofType validation.TypeInt)))
       until_both
     = Some (validation.ConflictsWithError "recurrence.0.until_date"
               "recurrence.0.until_occurrences").
Proof.
  intros block until_both rrule_and_period.
  split; [| split].
  - split; [reflexivity |]. split; [reflexivity |]. split; [| reflexivity].
    refine (recurrence_conflict_keys_name_nothing until_both _ "until_date"
              (validation.withConflictsWith ["recurrence.until_occurrences"]
                 (validation.withOptional (validation.ofType validation.TypeInt)))
              eq_refl _).
    simpl. tauto.
  - split; [reflexivity |]. split; [reflexivity |]. split; [| reflexivity].
    refine (recurrence_conflict_keys_name_nothing rrule_and_period _ "rrule"
              (validation.withConflictsWith
                 ["recurrence.period"; "recurrence.until_date";
                  "recurrence.until_occurrences"; "recurrence.week_days"]
                 (validation.withOptional (validation.ofType validation.TypeString)))
              eq_refl _).
    simpl. tauto.
  - reflexivity.
Defined.

(** The same validation rejects what it is able to see. *)
Example validation_examples :
  let both_starts :=
    [ ("scope", validation.CList [validation.CPrim "host:web-1"]);
      ("start", validation.CPrim "1700000000");
      ("start_date", validation.CPrim "2023-11-14T22:13:20Z") ] in
  let no_scope := [ ("start", validation.CPrim "1700000000") ] in
  let two_blocks :=
    [ ("scope", validation.CList [validation.CPrim "host:web-1"]);
      ("recurrence",
        validation.CList
          [validation.CMap [("type", validation.CPrim "days")];
           validation.CMap [("period", validation.CPrim "2")]]) ] in
  let plain :=
    [ ("scope", validation.CList [validation.CPrim "host:web-1"]);
      ("monitor_tags", validation.CList [validation.CPrim "team:web"]) ] in
  validation.Validate validation.resourceDatadogDowntime both_starts
  = [validation.ConflictsWithError "start_date" "start"]
  /\ validation.Validate validation.resourceDatadogDowntime no_scope
     = [validation.MissingRequired "scope"]
  /\ validation.Validate validation.resourceDatadogDowntime two_blocks
     = [validation.TooManyItems "recurrence"]
  /\ validation.Validate validation.resourceDatadogDowntime plain = [].
Proof. vm_compute. repeat split; reflexivity. Qed.

(** Once accepted, both conflicting sub-fields reach the request. *)
Example conflicting_recurrence_reaches_request :
  let d := resourceData ""
             [ ("scope", schema.VList ["host:web-1"]);
               ("recurrence",
                 schema.VBlocks
                   [schema.mkBlock (Some 1) (Some "days") (Some 1700086400) (Some 3)
                      None None]) ] in
  buildRecurrence d
  = datadogV1.mkRecurrence (Some 1) (Some "days") (datadogV1.Value 1700086400)
      (datadogV1.Value 3) None None.
Proof. vm_compute. reflexivity. Qed.

(* ===================================================================== *)
(** ** More on the request builder *)
(* ===================================================================== *)

(** In create mode the builder makes no call to the client and always
    returns a request. *)
Theorem buildDowntimeStruct_create_total
    (d : schema.ResourceData) (client1 client2 : datadogV1.APIClient) :
  buildDowntimeStruct d client1 false = buildDowntimeStruct d client2 false
  /\ exists req, buildDowntimeStruct d client1 false = Ok req.
Proof.
  unfold buildDowntimeStruct, result_bind.
  destruct (getDowntimeBoundaryTimestamp d "end_date" "end") as [endValue endAttrName].
  destruct (getDowntimeBoundaryTimestamp d "start_date" "start")
    as [startValue startAttrName].
  split; [reflexivity | eexists; reflexivity].
Qed.

(** The part of a built request that depends on the boundaries and on the
    recurrence, given the current start and end the builder compared with. *)
Lemma buildDowntimeStruct_rest
    (d : schema.ResourceData) (client : datadogV1.APIClient) (updating : bool)
    (req : datadogV1.Downtime) :
  buildDowntimeStruct d client updating = Ok req ->
  exists currentStart currentEnd : Z,
    (updating = false -> currentStart = 0 /\ currentEnd = 0)
    /\ (forall id currdt httpresp,
          updating = true ->
          Go.strconv.ParseInt (schema.Id d) = Some id ->
          datadogV1.GetDowntime client id = (currdt, httpresp, None) ->
          currentStart = datadogV1.GetStart currdt /\ currentEnd = datadogV1.GetEnd currdt)
    /\ datadogV1.End_ req
       = (let '(endValue, endAttrName) := getDowntimeBoundaryTimestamp d "end_date" "end" in
          if downtimeBoundaryNeedsApply d endAttrName currentEnd endValue updating
          then datadogV1.Value endValue else datadogV1.Unset)
    /\ datadogV1.Start req
       = (let '(startValue, startAttrName) :=
            getDowntimeBoundaryTimestamp d "start_date" "start" in
          if downtimeBoundaryNeedsApply d startAttrName currentStart startValue updating
          then Some startValue else None)
    /\ datadogV1.Recurrence req
       = match schema.GetOk d "recurrence" with
         | Some _ => datadogV1.Value (buildRecurrence d)
         | None => datadogV1.Unset
         end
    /\ datadogV1.Id req = None
    /\ datadogV1.Active req = None
    /\ datadogV1.Disabled req = None
    /\ datadogV1.Canceled req = datadogV1.Unset.
Proof.
  unfold buildDowntimeStruct, result_bind.
  match goal with
  | |- match ?prefetch with _ => _ end = _ -> _ =>
      destruct prefetch as [[currentStart currentEnd] | e | why] eqn:Hprefetch;
        try discriminate
  end.
  intros Hreq. exists currentStart, currentEnd.
  split; [| split].
  - intros ->. injection Hprefetch as <- <-. auto.
  - intros id currdt httpresp -> Hid Hfetch.
    rewrite Hid, Hfetch in Hprefetch. injection Hprefetch as <- <-. auto.
  - destruct (getDowntimeBoundaryTimestamp d "end_date" "end") as [endValue endAttrName].
    destruct (getDowntimeBoundaryTimestamp d "start_date" "start")
      as [startValue startAttrName].
    injection Hreq as <-.
    destruct (downtimeBoundaryNeedsApply d endAttrName currentEnd endValue updating),
      (downtimeBoundaryNeedsApply d startAttrName currentStart startValue updating),
      (schema.GetOk d "message"), (schema.GetOk d "monitor_id"),
      (schema.GetOk d "recurrence"), (schema.GetOk d "timezone");
      repeat split; reflexivity.
Qed.

(** A create sends every boundary the resolver attributes to an attribute,
    and no other: the request has an end (a start) exactly when the resolver
    names the attribute it took it from, and the value is the resolved one. *)
Theorem buildDowntimeStruct_create_boundaries
    (d : schema.ResourceData) (client : datadogV1.APIClient) (req : datadogV1.Downtime) :
  buildDowntimeStruct d client false = Ok req ->
  datadogV1.End_ req
  = (let '(endValue, endAttrName) := getDowntimeBoundaryTimestamp d "end_date" "end" in
     if String.eqb endAttrName "" then datadogV1.Unset else datadogV1.Value endValue)
  /\ datadogV1.Start req
     = (let '(startValue, startAttrName) :=
          getDowntimeBoundaryTimestamp d "start_date" "start" in
        if String.eqb startAttrName "" then None else Some startValue).
Proof.
  intros Hbuild.
  destruct (buildDowntimeStruct_rest d client false req Hbuild)
    as (currentStart & currentEnd & _ & _ & Hend & Hstart & _).
  rewrite Hend, Hstart.
  destruct (getDowntimeBoundaryTimestamp d "end_date" "end") as [endValue endAttrName].
  destruct (getDowntimeBoundaryTimestamp d "start_date" "start")
    as [startValue startAttrName].
  unfold downtimeBoundaryNeedsApply.
  destruct (String.eqb endAttrName ""), (String.eqb startAttrName ""); auto.
Qed.

(** The scenario of a create with a start and no end. *)
Lemma buildDowntimeStruct_create_boundaries_witness :
  let d := resourceData "" [("scope", schema.VList ["host:web-1"]);
                            ("start", schema.VInt 1700000000)] in
  let client := clientOf (datadogV1.zeroDowntime, None, None)
                  (datadogV1.zeroDowntime, None, None) in
  let req := match buildDowntimeStruct d client false with
             | Ok r => r
             | _ => datadogV1.zeroDowntime
             end in
  datadogV1.End_ req = datadogV1.Unset /\ datadogV1.Start req = Some 1700000000.
Proof.
  intros d client req.
  exact (buildDowntimeStruct_create_boundaries d client req eq_refl).
Defined.

(** An update leaves out a boundary exactly when the configuration does not
    supply it, or when the value the server holds equals the configured one
    and the supplying attribute did not change; otherwise it sends the
    configured value. *)
Theorem buildDowntimeStruct_update_boundaries
    (d : schema.ResourceData) (client : datadogV1.APIClient) (req : datadogV1.Downtime)
    (id : Z) (currdt : datadogV1.Downtime) (httpresp : option datadogV1.Response) :
  Go.strconv.ParseInt (schema.Id d) = Some id ->
  datadogV1.GetDowntime client id = (currdt, httpresp, None) ->
  buildDowntimeStruct d client true = Ok req ->
  let '(endValue, endAttrName) := getDowntimeBoundaryTimestamp d "end_date" "end" in
  let '(startValue, startAttrName) := getDowntimeBoundaryTimestamp d "start_date" "start" in
  (datadogV1.End_ req = datadogV1.Unset \/ datadogV1.End_ req = datadogV1.Value endValue)
  /\ (datadogV1.End_ req = datadogV1.Unset
      <-> endAttrName = ""
          \/ (datadogV1.GetEnd currdt = endValue /\ schema.HasChange d endAttrName = false))
  /\ (datadogV1.Start req = None \/ datadogV1.Start req = Some startValue)
  /\ (datadogV1.Start req = None
      <-> startAttrName = ""
          \/ (datadogV1.GetStart currdt = startValue
              /\ schema.HasChange d startAttrName = false)).
Proof.
  intros Hid Hfetch Hbuild.
  destruct (buildDowntimeStruct_rest d client true req Hbuild)
    as (currentStart & currentEnd & _ & Hcurrent & Hend & Hstart & _).
  destruct (Hcurrent id currdt httpresp eq_refl Hid Hfetch) as [-> ->].
  rewrite Hend, Hstart. clear Hend Hstart Hcurrent Hbuild.
  destruct (getDowntimeBoundaryTimestamp d "end_date" "end") as [endValue endAttrName].
  destruct (getDowntimeBoundaryTimestamp d "start_date" "start")
    as [startValue startAttrName].
  unfold downtimeBoundaryNeedsApply.
  destruct (String.eqb_spec endAttrName ""), (String.eqb_spec startAttrName "");
    destruct (Z.eqb_spec (datadogV1.GetEnd currdt) endValue),
      (Z.eqb_spec (datadogV1.GetStart currdt) startValue);
    destruct (schema.HasChange d endAttrName), (schema.HasChange d startAttrName);
    simpl; intuition (congruence || discriminate).
Qed.

(** The scenario of an update whose end is the one the server holds: the
    end is left out; the start differs and is sent. *)
Lemma buildDowntimeStruct_update_boundaries_witness :
  let d := resourceData "5" [("scope", schema.VList ["host:web-1"]);
                             ("start", schema.VInt 1700000060);
                             ("end", schema.VInt 1700003600)] in
  let current := remoteDowntime 5 None in
  let client := clientOf (current, Some ok200, None) (current, Some ok200, None) in
  let req := match buildDowntimeStruct d client true with
             | Ok r => r
             | _ => datadogV1.zeroDowntime
             end in
  datadogV1.End_ req = datadogV1.Unset /\ datadogV1.Start req = Some 1700000060.
Proof.
  intros d current client req.
  pose proof (buildDowntimeStruct_update_boundaries d client req 5 current (Some ok200)
                eq_refl eq_refl eq_refl) as H.
  vm_compute in H. destruct H as (_ & Hend & Hstart & _).
  split.
  - apply Hend. right. split; reflexivity.
  - destruct Hstart as [Hnone | Hsome]; [discriminate Hnone | exact Hsome].
Defined.

Lemma int32_spec (x : Z) :
  - 2 ^ 31 <= Go.int32 x < 2 ^ 31
  /\ (Go.int32 x - x) mod 2 ^ 32 = 0
  /\ (- 2 ^ 31 <= x < 2 ^ 31 -> Go.int32 x = x).
Proof.
  unfold Go.int32.
  pose proof (Z.mod_pos_bound (x + 2 ^ 31) (2 ^ 32) ltac:(lia)) as Hbound.
  split; [lia |]. split.
  - rewrite (Z.mod_eq (x + 2 ^ 31) (2 ^ 32)) by lia.
    replace (x + 2 ^ 31 - 2 ^ 32 * ((x + 2 ^ 31) / 2 ^ 32) - 2 ^ 31 - x)
      with (- ((x + 2 ^ 31) / 2 ^ 32) * 2 ^ 32) by lia.
    apply Z.mod_mul. lia.
  - intros Hrange. rewrite Z.mod_small by lia. lia.
Qed.

(** The builder narrows [period] and [until_occurrences] to 32 bits: the
    request carries a value of the 32-bit range that is congruent to the
    configured one modulo 2^32, so a configured value of that range is sent
    as it is and a larger one wraps around; [until_date] is sent in full. *)
Theorem buildRecurrence_narrowing (d : schema.ResourceData) :
  (forall p, schema.GetOk d "recurrence.0.period" = Some (schema.VInt p) ->
     exists q, datadogV1.Period (buildRecurrence d) = Some q
               /\ - 2 ^ 31 <= q < 2 ^ 31
               /\ (q - p) mod 2 ^ 32 = 0
               /\ (- 2 ^ 31 <= p < 2 ^ 31 -> q = p))
  /\ (forall n, schema.GetOk d "recurrence.0.until_occurrences" = Some (schema.VInt n) ->
        exists q, datadogV1.UntilOccurrences (buildRecurrence d) = datadogV1.Value q
                  /\ - 2 ^ 31 <= q < 2 ^ 31
                  /\ (q - n) mod 2 ^ 32 = 0
                  /\ (- 2 ^ 31 <= n < 2 ^ 31 -> q = n))
  /\ (forall t, schema.GetOk d "recurrence.0.until_date" = Some (schema.VInt t) ->
        datadogV1.UntilDate (buildRecurrence d) = datadogV1.Value t).
Proof.
  unfold buildRecurrence.
  split; [| split].
  - intros p ->. exists (Go.int32 p).
    split; [| apply int32_spec].
    destruct (schema.GetOk d "recurrence.0.type"),
      (schema.GetOk d "recurrence.0.until_date"),
      (schema.GetOk d "recurrence.0.until_occurrences"),
      (schema.GetOk d "recurrence.0.week_days"),
      (schema.GetOk d "recurrence.0.rrule"); reflexivity.
  - intros n ->. exists (Go.int32 n).
    split; [| apply int32_spec].
    destruct (schema.GetOk d "recurrence.0.period"),
      (schema.GetOk d "recurrence.0.type"),
      (schema.GetOk d "recurrence.0.until_date"),
      (schema.GetOk d "recurrence.0.week_days"),
      (schema.GetOk d "recurrence.0.rrule"); reflexivity.
  - intros t ->.
    destruct (schema.GetOk d "recurrence.0.period"),
      (schema.GetOk d "recurrence.0.type"),
      (schema.GetOk d "recurrence.0.until_occurrences"),
      (schema.GetOk d "recurrence.0.week_days"),
      (schema.GetOk d "recurrence.0.rrule"); reflexivity.
Qed.

(** A period of [2^32 + 3] is sent as [3]; an end of the recurrence after
    the year 2038 is sent as it is. *)
Lemma buildRecurrence_narrowing_witness :
  let d := resourceData ""
             [ ("scope", schema.VList ["host:web-1"]);
               ("recurrence",
                 schema.VBlocks
                   [schema.mkBlock (Some 4294967299) (Some "days") (Some 4102444800)
                      None None None]) ] in
  datadogV1.Period (buildRecurrence d) = Some 3
  /\ datadogV1.UntilDate (buildRecurrence d) = datadogV1.Value 4102444800.
Proof.
  intros d.
  destruct (buildRecurrence_narrowing d) as (Hperiod & _ & Hdate).
  split.
  - destruct (Hperiod 4294967299 eq_refl) as (q & Hq & _). rewrite Hq.
    vm_compute in Hq. symmetry. exact Hq.
  - exact (Hdate 4102444800 eq_refl).
Defined.

(* ===================================================================== *)
(** ** More on the state projection *)
(* ===================================================================== *)

Lemma projectionWrites_keys (dt : datadogV1.Downtime) (k : string) :
  k ∈ map fst (projectionWrites dt) -> k ∈ projectedKeys.
Proof.
  unfold projectionWrites, projectedKeys.
  destruct (decide (datadogV1.GetMonitorTags dt = ["*"])),
    (datadogV1.MonitorId dt), (datadogV1.Recurrence dt); simpl; intros Hk;
    repeat (apply elem_of_cons in Hk as [-> | Hk]; [repeat constructor |]);
    inversion Hk.
Qed.

(** Whatever the outcome, the projection changes nothing but the ten
    attributes it projects: every other attribute ([start_date] and
    [end_date] among them) keeps its value, and so do the identifier, the
    record of changed attributes and the writer; the log only grows. *)
Theorem updateDowntimeState_frame (dt : datadogV1.Downtime) (d : schema.ResourceData) :
  let d' := (updateDowntimeState dt d).1 in
  (forall k, k ∉ projectedKeys -> schema.rd_attrs d' !! k = schema.rd_attrs d !! k)
  /\ schema.rd_attrs d' !! "start_date" = schema.rd_attrs d !! "start_date"
  /\ schema.rd_attrs d' !! "end_date" = schema.rd_attrs d !! "end_date"
  /\ schema.Id d' = schema.Id d
  /\ schema.rd_changed d' = schema.rd_changed d
  /\ schema.rd_writer d' = schema.rd_writer d
  /\ exists attempts, schema.rd_log d' = schema.rd_log d ++ attempts.
Proof.
  intros d'. subst d'.
  rewrite updateDowntimeState_writeAll, writeAll_run. simpl.
  destruct (accepted_prefix (schema.rd_writer d) (projectionWrites dt)) as [rest Hrest].
  assert (Hframe : forall k, k ∉ projectedKeys ->
            written (accepted (schema.rd_writer d) (projectionWrites dt)) (schema.rd_attrs d) !! k
            = schema.rd_attrs d !! k).
  { intros k Hk. rewrite written_lookup, lastWrite_absent; [reflexivity |].
    apply (prefix_keys _ _ _ _ Hrest). intros Hin. apply Hk.
    now apply (projectionWrites_keys dt). }
  split; [exact Hframe |].
  split; [apply Hframe; unfold projectedKeys; rewrite !not_elem_of_cons;
          repeat split; try discriminate; apply not_elem_of_nil |].
  split; [apply Hframe; unfold projectedKeys; rewrite !not_elem_of_cons;
          repeat split; try discriminate; apply not_elem_of_nil |].
  repeat split. eexists. reflexivity.
Qed.

(** A remote downtime without a monitor identifier, or without a
    recurrence, leaves the local [monitor_id], or [recurrence], as it was:
    the projection never clears them. *)
Theorem updateDowntimeState_keeps_absent_fields
    (dt : datadogV1.Downtime) (d : schema.ResourceData) :
  let d' := (updateDowntimeState dt d).1 in
  (datadogV1.Get (datadogV1.MonitorId dt) = None ->
   schema.rd_attrs d' !! "monitor_id" = schema.rd_attrs d !! "monitor_id")
  /\ (datadogV1.Get (datadogV1.Recurrence dt) = None ->
      schema.rd_attrs d' !! "recurrence" = schema.rd_attrs d !! "recurrence").
Proof.
  intros d'. subst d'.
  rewrite updateDowntimeState_writeAll, writeAll_run. simpl.
  destruct (accepted_prefix (schema.rd_writer d) (projectionWrites dt)) as [rest Hrest].
  split; intros Habsent;
    rewrite written_lookup, lastWrite_absent; try reflexivity;
    apply (prefix_keys _ _ _ _ Hrest); unfold projectionWrites;
    destruct (decide (datadogV1.GetMonitorTags dt = ["*"])),
      (datadogV1.MonitorId dt), (datadogV1.Recurrence dt); try discriminate Habsent;
    simpl; rewrite !not_elem_of_cons; repeat split; try discriminate;
    apply not_elem_of_nil.
Qed.

(** The local state holds the monitor 42 and a recurrence; the remote
    downtime has neither; both are still there after the projection. *)
Lemma updateDowntimeState_keeps_absent_fields_witness :
  let block := schema.mkBlock (Some 1) (Some "days") None None None None in
  let d := resourceData "5" [("monitor_id", schema.VInt 42);
                             ("recurrence", schema.VBlocks [block])] in
  let d' := (updateDowntimeState (remoteDowntime 5 None) d).1 in
  schema.rd_attrs d' !! "monitor_id" = Some (schema.VInt 42)
  /\ schema.rd_attrs d' !! "recurrence" = Some (schema.VBlocks [block]).
Proof.
  intros block d d'.
  destruct (updateDowntimeState_keeps_absent_fields (remoteDowntime 5 None) d)
    as [Hid Hrecurrence].
  split; [exact (Hid eq_refl) | exact (Hrecurrence eq_refl)].
Defined.

(** A projection that succeeds has copied the remote values: each of
    [active], [disabled], [end], [message], [timezone], [scope] and [start]
    reads back as the getter of the remote field (the zero value when the
    field is absent), [monitor_id] as the remote identifier when there is
    one, and each projected key was written once, in the order of the
    source. *)
Theorem updateDowntimeState_copies
    (dt : datadogV1.Downtime) (d d' : schema.ResourceData) :
  updateDowntimeState dt d = (d', Ok tt) ->
  schema.Get d' "active" = schema.VBool (datadogV1.GetActive dt)
  /\ schema.Get d' "disabled" = schema.VBool (datadogV1.GetDisabled dt)
  /\ schema.Get d' "end" = schema.VInt (datadogV1.GetEnd dt)
  /\ schema.Get d' "message" = schema.VString (datadogV1.GetMessage dt)
  /\ schema.Get d' "timezone" = schema.VString (datadogV1.GetTimezone dt)
  /\ schema.Get d' "scope" = schema.VList (datadogV1.GetScope dt)
  /\ schema.Get d' "start" = schema.VInt (datadogV1.GetStart dt)
  /\ (forall v, datadogV1.MonitorId dt = datadogV1.Value v ->
        schema.Get d' "monitor_id" = schema.VInt v)
  /\ schema.rd_log d' = schema.rd_log d ++ map fst (projectionWrites dt)
  /\ NoDup (map fst (projectionWrites dt)).
Proof.
  intros Hrun. apply updateDowntimeState_success in Hrun. subst d'.
  assert (Hget : forall k v,
            schema.recurrenceField k = None ->
            lastWrite k (projectionWrites dt) = Some v ->
            schema.Get (afterWrites (projectionWrites dt) (projectionWrites dt) d) k = v).
  { intros k v Htop Hlast. unfold schema.Get.
    now rewrite readField_top, afterWrites_attrs, written_lookup, Hlast by exact Htop. }
  repeat split;
    try (apply Hget; [reflexivity |]; unfold projectionWrites;
         destruct (decide (datadogV1.GetMonitorTags dt = ["*"])),
           (datadogV1.MonitorId dt), (datadogV1.Recurrence dt); reflexivity).
  - intros v Hv. apply Hget; [reflexivity |]. unfold projectionWrites. rewrite Hv.
    destruct (decide (datadogV1.GetMonitorTags dt = ["*"])),
      (datadogV1.Recurrence dt); reflexivity.
  - unfold projectionWrites.
    destruct (decide (datadogV1.GetMonitorTags dt = ["*"])),
      (datadogV1.MonitorId dt), (datadogV1.Recurrence dt); simpl;
      repeat (apply NoDup_cons_2;
              [rewrite ?not_elem_of_cons; repeat split; try discriminate;
               apply not_elem_of_nil |]);
      apply NoDup_nil_2.
Qed.

(** A remote downtime with no message and no time zone, projected into an
    empty state. *)
Lemma updateDowntimeState_copies_witness :
  let dt :=
    datadogV1.mkDowntime (Some true) datadogV1.Unset None (datadogV1.Value 1700003600)
      (Some 5) None (datadogV1.Value 42) None datadogV1.Unset
      (Some ["host:web-1"]) (Some 1700000000) None in
  let d' := (updateDowntimeState dt (resourceData "5" [])).1 in
  schema.Get d' "active" = schema.VBool true
  /\ schema.Get d' "disabled" = schema.VBool false
  /\ schema.Get d' "end" = schema.VInt 1700003600
  /\ schema.Get d' "message" = schema.VString ""
  /\ schema.Get d' "monitor_id" = schema.VInt 42
  /\ schema.rd_log d'
     = ["active"; "disabled"; "end"; "message"; "monitor_id"; "timezone"; "scope";
        "monitor_tags"; "start"].
Proof.
  intros dt d'.
  assert (Hrun : updateDowntimeState dt (resourceData "5" []) = (d', Ok tt))
    by (vm_compute; reflexivity).
  destruct (updateDowntimeState_copies dt (resourceData "5" []) d' Hrun)
    as (Hactive & Hdisabled & Hend & Hmessage & _ & _ & _ & Hmonitor & Hlog & _).
  split; [exact Hactive |]. split; [exact Hdisabled |]. split; [exact Hend |].
  split; [exact Hmessage |]. split; [exact (Hmonitor 42 eq_refl) |].
  rewrite Hlog. reflexivity.
Defined.

(** The sub-fields of the first recurrence block, as [GetOk] shows them. *)
Lemma GetOk_recurrence_fields (d : schema.ResourceData) (b : schema.RecurrenceBlock)
    (bs : list schema.RecurrenceBlock) :
  schema.rd_attrs d !! "recurrence" = Some (schema.VBlocks (b :: bs)) ->
  schema.GetOk d "recurrence.0.period"
  = match schema.period b with
    | Some p => if p =? 0 then None else Some (schema.VInt p)
    | None => None
    end
  /\ schema.GetOk d "recurrence.0.type"
     = match schema.type b with
       | Some t => if String.eqb t "" then None else Some (schema.VString t)
       | None => None
       end
  /\ schema.GetOk d "recurrence.0.until_date"
     = match schema.until_date b with
       | Some t => if t =? 0 then None else Some (schema.VInt t)
       | None => None
       end
  /\ schema.GetOk d "recurrence.0.until_occurrences"
     = match schema.until_occurrences b with
       | Some n => if n =? 0 then None else Some (schema.VInt n)
       | None => None
       end
  /\ schema.GetOk d "recurrence.0.week_days"
     = match schema.week_days b with
       | Some (day :: days) => Some (schema.VList (day :: days))
       | _ => None
       end
  /\ schema.GetOk d "recurrence.0.rrule"
     = match schema.rrule b with
       | Some r => if String.eqb r "" then None else Some (schema.VString r)
       | None => None
       end.
Proof.
  intros Hblock. unfold schema.GetOk, schema.readField. simpl. rewrite Hblock.
  destruct b as [p t ud uo wd rr]. simpl.
  destruct p, t, ud, uo, wd as [[|] |], rr; repeat split; reflexivity.
Qed.

Lemma projectionWrites_recurrence (dt : datadogV1.Downtime) (r : datadogV1.DowntimeRecurrence) :
  datadogV1.Recurrence dt = datadogV1.Value r ->
  lastWrite "recurrence" (projectionWrites dt)
  = Some (schema.VBlocks [projectRecurrence r]).
Proof.
  intros Hr. unfold projectionWrites. rewrite Hr.
  destruct (decide (datadogV1.GetMonitorTags dt = ["*"])),
    (datadogV1.MonitorId dt); reflexivity.
Qed.

(** What the builder makes of the six sub-fields. *)
Lemma buildRecurrence_fields (d : schema.ResourceData) :
  datadogV1.Period (buildRecurrence d)
  = (λ attr, Go.int32 (schema.as_int attr)) <$> schema.GetOk d "recurrence.0.period"
  /\ datadogV1.Type_ (buildRecurrence d)
     = schema.as_string <$> schema.GetOk d "recurrence.0.type"
  /\ datadogV1.UntilDate (buildRecurrence d)
     = match schema.GetOk d "recurrence.0.until_date" with
       | Some attr => datadogV1.Value (schema.as_int attr)
       | None => datadogV1.Unset
       end
  /\ datadogV1.UntilOccurrences (buildRecurrence d)
     = match schema.GetOk d "recurrence.0.until_occurrences" with
       | Some attr => datadogV1.Value (Go.int32 (schema.as_int attr))
       | None => datadogV1.Unset
       end
  /\ datadogV1.WeekDays (buildRecurrence d)
     = schema.as_list <$> schema.GetOk d "recurrence.0.week_days"
  /\ datadogV1.Rrule (buildRecurrence d)
     = schema.as_string <$> schema.GetOk d "recurrence.0.rrule".
Proof.
  unfold buildRecurrence.
  destruct (schema.GetOk d "recurrence.0.period"),
    (schema.GetOk d "recurrence.0.type"),
    (schema.GetOk d "recurrence.0.until_date"),
    (schema.GetOk d "recurrence.0.until_occurrences"),
    (schema.GetOk d "recurrence.0.week_days"),
    (schema.GetOk d "recurrence.0.rrule"); repeat split; reflexivity.
Qed.

(** The map the projection builds holds each sub-field the payload carries. *)
Lemma projectRecurrence_fields (r : datadogV1.DowntimeRecurrence) :
  projectRecurrence r
  = schema.mkBlock (datadogV1.Period r) (datadogV1.Type_ r)
      (datadogV1.Get (datadogV1.UntilDate r)) (datadogV1.Get (datadogV1.UntilOccurrences r))
      (datadogV1.WeekDays r) (datadogV1.Rrule r).
Proof.
  destruct r as [[p |] [t |] [| | ud] [| | uo] [wd |] [rr |]]; reflexivity.
Qed.

(** A remote recurrence that is projected and then rebuilt comes back with
    its sub-fields, except that a sub-field holding the zero value (a period
    or a count of 0, an empty type or rule, an empty list of week days, an
    end at 0) or an explicit null is dropped, and that the period and the
    count are narrowed to 32 bits. *)
Theorem recurrence_round_trip
    (remote : datadogV1.Downtime) (r : datadogV1.DowntimeRecurrence)
    (d d' : schema.ResourceData) :
  datadogV1.Recurrence remote = datadogV1.Value r ->
  updateDowntimeState remote d = (d', Ok tt) ->
  schema.GetOk d' "recurrence" = Some (schema.VBlocks [projectRecurrence r])
  /\ datadogV1.Period (buildRecurrence d')
     = match datadogV1.Period r with
       | Some p => if p =? 0 then None else Some (Go.int32 p)
       | None => None
       end
  /\ datadogV1.Type_ (buildRecurrence d')
     = match datadogV1.Type_ r with
       | Some t => if String.eqb t "" then None else Some t
       | None => None
       end
  /\ datadogV1.UntilDate (buildRecurrence d')
     = match datadogV1.UntilDate r with
       | datadogV1.Value t => if t =? 0 then datadogV1.Unset else datadogV1.Value t
       | _ => datadogV1.Unset
       end
  /\ datadogV1.UntilOccurrences (buildRecurrence d')
     = match datadogV1.UntilOccurrences r with
       | datadogV1.Value n =>
           if n =? 0 then datadogV1.Unset else datadogV1.Value (Go.int32 n)
       | _ => datadogV1.Unset
       end
  /\ datadogV1.WeekDays (buildRecurrence d')
     = match datadogV1.WeekDays r with
       | Some (day :: days) => Some (day :: days)
       | _ => None
       end
  /\ datadogV1.Rrule (buildRecurrence d')
     = match datadogV1.Rrule r with
       | Some rule => if String.eqb rule "" then None else Some rule
       | None => None
       end.
Proof.
  intros Hr Hrun. apply updateDowntimeState_success in Hrun. subst d'.
  assert (Hblock : schema.rd_attrs
                     (afterWrites (projectionWrites remote) (projectionWrites remote) d)
                   !! "recurrence"
                   = Some (schema.VBlocks [projectRecurrence r])).
  { now rewrite afterWrites_attrs, written_lookup, (projectionWrites_recurrence remote r Hr). }
  split.
  - unfold schema.GetOk. now rewrite readField_top, Hblock by reflexivity.
  - destruct (buildRecurrence_fields
                (afterWrites (projectionWrites remote) (projectionWrites remote) d))
      as (-> & -> & -> & -> & -> & ->).
    destruct (GetOk_recurrence_fields _ _ _ Hblock) as (-> & -> & -> & -> & -> & ->).
    rewrite projectRecurrence_fields. simpl.
    repeat split.
    + destruct (datadogV1.Period r) as [p |]; [destruct (p =? 0) |]; reflexivity.
    + destruct (datadogV1.Type_ r) as [t |]; [destruct (String.eqb t "") |]; reflexivity.
    + destruct (datadogV1.UntilDate r) as [| | t]; try reflexivity.
      simpl. destruct (t =? 0); reflexivity.
    + destruct (datadogV1.UntilOccurrences r) as [| | n]; try reflexivity.
      simpl. destruct (n =? 0); reflexivity.
    + destruct (datadogV1.WeekDays r) as [[| day days] |]; reflexivity.
    + destruct (datadogV1.Rrule r) as [rule |]; [destruct (String.eqb rule "") |];
        reflexivity.
Qed.

(** A weekly recurrence on two days until a date, with an explicit null for
    the count. *)
Lemma recurrence_round_trip_witness :
  let r := datadogV1.mkRecurrence (Some 2) (Some "weeks") (datadogV1.Value 1700086400)
             datadogV1.Null (Some ["Mon"; "Fri"]) None in
  let remote :=
    datadogV1.mkDowntime (Some true) datadogV1.Unset (Some false) datadogV1.Unset
      (Some 5) None datadogV1.Unset None (datadogV1.Value r)
      (Some ["host:web-1"]) (Some 1700000000) (Some "UTC") in
  let d' := (updateDowntimeState remote (resourceData "5" [])).1 in
  buildRecurrence d'
  = datadogV1.mkRecurrence (Some 2) (Some "weeks") (datadogV1.Value 1700086400)
      datadogV1.Unset (Some ["Mon"; "Fri"]) None.
Proof.
  intros r remote d'.
  assert (Hrun : updateDowntimeState remote (resourceData "5" []) = (d', Ok tt))
    by (vm_compute; reflexivity).
  destruct (recurrence_round_trip remote r (resourceData "5" []) d' eq_refl Hrun)
    as (_ & Hp & Ht & Hud & Huo & Hwd & Hrr).
  destruct (buildRecurrence d') as [p t ud uo wd rr]. simpl in *.
  now rewrite Hp, Ht, Hud, Huo, Hwd, Hrr.
Defined.
(* ===================================================================== *)
(** ** Identifiers as decimal strings *)
(* ===================================================================== *)

Lemma digits_string_of_uint (u : Decimal.uint) (acc : Z) :
  Go.digits acc (NilEmpty.string_of_uint u) = Some (uintValue acc u).
Proof.
  revert acc. induction u; intros acc; simpl; try reflexivity;
    rewrite IHu; do 2 f_equal; change (Go.digit_val "0") with 0; lia.
Qed.

Lemma uintValue_pos (u : Decimal.uint) (acc : positive) :
  uintValue (Z.pos acc) u = Z.pos (Pos.of_uint_acc u acc).
Proof.
  revert acc. induction u; intros acc; simpl; try reflexivity;
    rewrite <- IHu; f_equal; lia.
Qed.

Lemma uintValue_zero (u : Decimal.uint) : uintValue 0 u = Z.of_N (Pos.of_uint u).
Proof.
  induction u; simpl; try reflexivity; try exact IHu; apply uintValue_pos.
Qed.

Lemma uintValue_to_uint (p : positive) : uintValue 0 (Pos.to_uint p) = Z.pos p.
Proof. now rewrite uintValue_zero, DecimalPos.Unsigned.of_to. Qed.

Lemma ParseInt_string_of_uint (u : Decimal.uint) :
  u ≠ Decimal.Nil ->
  Go.strconv.ParseInt (NilEmpty.string_of_uint u)
  = (if (Go.minInt64 <=? uintValue 0 u) && (uintValue 0 u <=? Go.maxInt64)
     then Some (uintValue 0 u) else None)
  /\ Go.strconv.ParseInt (String "-" (NilEmpty.string_of_uint u))
     = (if (Go.minInt64 <=? - uintValue 0 u) && (- uintValue 0 u <=? Go.maxInt64)
        then Some (- uintValue 0 u) else None)
  /\ NilZero.string_of_uint u = NilEmpty.string_of_uint u.
Proof.
  intros Hnil. pose proof (digits_string_of_uint u 0) as Hdigits.
  unfold Go.strconv.ParseInt.
  destruct u; try contradiction; simpl NilEmpty.string_of_uint in *;
    cbv iota; rewrite Hdigits; repeat split; reflexivity.
Qed.

(** [strconv.ParseInt] reads back what [strconv.FormatInt] prints, for every
    number of the 64-bit range. *)
Lemma ParseInt_FormatInt (i : Z) :
  Go.minInt64 <= i <= Go.maxInt64 ->
  Go.strconv.ParseInt (Go.strconv.FormatInt i) = Some i.
Proof.
  intros Hrange. unfold Go.strconv.FormatInt.
  destruct i as [| p | p]; [reflexivity | |]; simpl;
    destruct (ParseInt_string_of_uint (Pos.to_uint p)
                (DecimalPos.Unsigned.to_uint_nonnil p)) as (Hpos & Hneg & ->);
    [rewrite Hpos | rewrite Hneg]; rewrite uintValue_to_uint;
    destruct (Z.leb_spec Go.minInt64 (Z.pos p)), (Z.leb_spec (Z.pos p) Go.maxInt64),
      (Z.leb_spec Go.minInt64 (- Z.pos p)), (Z.leb_spec (- Z.pos p) Go.maxInt64);
    simpl; try reflexivity; lia.
Qed.

(* ===================================================================== *)
(** ** More on the lifecycle operations *)
(* ===================================================================== *)

(** An identifier that is not a decimal number of the 64-bit range stops
    read, update, delete and import before any call to the client: they
    return the parse error (update wraps it as a configuration error)
    whatever the client is, and the [ResourceData] is untouched. *)
Theorem invalid_identifier_stops_before_client
    (d : schema.ResourceData) (client : datadogV1.APIClient) :
  Go.strconv.ParseInt (schema.Id d) = None ->
  let e := NumError "ParseInt" (schema.Id d) in
  resourceDatadogDowntimeRead client d = (d, Err e)
  /\ resourceDatadogDowntimeDelete client d = (d, Err e)
  /\ resourceDatadogDowntimeImport client d = (d, Err e)
  /\ buildDowntimeStruct d client true = Err e
  /\ resourceDatadogDowntimeUpdate client d
     = (d, Err (Errorf "failed to parse resource configuration: " e)).
Proof.
  intros Hid e.
  unfold resourceDatadogDowntimeImport, resourceDatadogDowntimeRead,
    resourceDatadogDowntimeDelete, resourceDatadogDowntimeUpdate, buildDowntimeStruct,
    schema.bind, schema.get, schema.fail.
  rewrite Hid. repeat split; reflexivity.
Qed.

(** A resource that has no identifier yet, and one whose identifier is a
    name. *)
Lemma invalid_identifier_stops_before_client_witness :
  let client := clientOf (remoteDowntime 5 None, Some ok200, None)
                  (remoteDowntime 5 None, Some ok200, None) in
  resourceDatadogDowntimeRead client (resourceData "" [])
  = (resourceData "" [], Err (NumError "ParseInt" ""))
  /\ resourceDatadogDowntimeDelete client (resourceData "web-1" [])
     = (resourceData "web-1" [], Err (NumError "ParseInt" "web-1")).
Proof.
  intros client. split.
  - exact (proj1 (invalid_identifier_stops_before_client
                    (resourceData "" []) client eq_refl)).
  - exact (proj1 (proj2 (invalid_identifier_stops_before_client
                           (resourceData "web-1" []) client eq_refl))).
Defined.

Lemma build_create_ok (d : schema.ResourceData) (client : datadogV1.APIClient) :
  exists req, buildDowntimeStruct d client false = Ok req.
Proof.
  unfold buildDowntimeStruct, result_bind.
  destruct (getDowntimeBoundaryTimestamp d "end_date" "end") as [endValue endAttrName].
  destruct (getDowntimeBoundaryTimestamp d "start_date" "start")
    as [startValue startAttrName].
  eexists. reflexivity.
Qed.

(** Create sends the request of the builder in create mode.  When the remote
    call succeeds, the identifier becomes the decimal form of the returned
    identifier before the projection runs, so it is recorded even if a write
    of the projection then fails.  When the remote call fails with a
    response, create returns the translated error and leaves the
    [ResourceData] untouched; when it fails without a response, create
    panics. *)
Theorem resourceDatadogDowntimeCreate_outcomes
    (client : datadogV1.APIClient) (d : schema.ResourceData)
    (req dt : datadogV1.Downtime) (httpresp : option datadogV1.Response)
    (err : option error) :
  buildDowntimeStruct d client false = Ok req ->
  datadogV1.CreateDowntime client req = (dt, httpresp, err) ->
  match err, httpresp with
  | None, _ =>
      resourceDatadogDowntimeCreate client d
      = updateDowntimeState dt (withId (Go.strconv.FormatInt (datadogV1.GetId dt)) d)
      /\ schema.Id (resourceDatadogDowntimeCreate client d).1
         = Go.strconv.FormatInt (datadogV1.GetId dt)
  | Some e, Some r =>
      resourceDatadogDowntimeCreate client d
      = (d, Err (TranslateClientError e (datadogV1.Host r) "error creating downtime"))
  | Some e, None =>
      resourceDatadogDowntimeCreate client d = (d, Panic nil_dereference)
  end.
Proof.
  intros Hbuild Hcreate.
  assert (Hrun : resourceDatadogDowntimeCreate client d
                 = match err with
                   | Some e =>
                       (r <- schema.deref httpresp ;;
                        schema.fail
                          (TranslateClientError e (datadogV1.Host r)
                             "error creating downtime")) d
                   | None =>
                       (schema.SetId (Go.strconv.FormatInt (datadogV1.GetId dt)) ;;
                        updateDowntimeState dt) d
                   end).
  { unfold resourceDatadogDowntimeCreate, schema.bind at 1, schema.get.
    rewrite Hbuild, Hcreate. destruct err; reflexivity. }
  rewrite Hrun. destruct err as [e |]; [destruct httpresp; reflexivity |].
  assert (Hstep : (schema.SetId (Go.strconv.FormatInt (datadogV1.GetId dt)) ;;
                   updateDowntimeState dt) d
                  = updateDowntimeState dt
                      (withId (Go.strconv.FormatInt (datadogV1.GetId dt)) d))
    by reflexivity.
  rewrite Hstep. split; [reflexivity |].
  now rewrite updateDowntimeState_id.
Qed.

(** The remote create answers with the downtime 9, and the writer refuses
    [timezone]: create returns that error, and the identifier is ["9"]. *)
Lemma resourceDatadogDowntimeCreate_outcomes_witness :
  let d := schema.mkResourceData "" (list_to_map [("scope", schema.VList ["host:web-1"])])
             (λ _, false) (refuse "timezone") [] in
  let created := remoteDowntime 9 None in
  let client := clientOf (created, Some ok200, None) (created, Some ok200, None) in
  (resourceDatadogDowntimeCreate client d).2 = Err (SetError "timezone" "invalid value")
  /\ schema.Id (resourceDatadogDowntimeCreate client d).1 = "9".
Proof.
  intros d created client.
  pose (req := match buildDowntimeStruct d client false with
               | Ok r => r
               | _ => datadogV1.zeroDowntime
               end).
  destruct (resourceDatadogDowntimeCreate_outcomes client d req created (Some ok200) None
              eq_refl eq_refl) as [Hrun Hid].
  split; [rewrite Hrun; vm_compute; reflexivity | exact Hid].
Defined.

(** After a create that succeeds, the identifier parses back to the
    identifier the remote create returned (a 64-bit number): that is the
    downtime a following read, update or delete addresses. *)
Theorem create_then_parse
    (client : datadogV1.APIClient) (d d' : schema.ResourceData) :
  resourceDatadogDowntimeCreate client d = (d', Ok tt) ->
  exists (req dt : datadogV1.Downtime) (httpresp : option datadogV1.Response),
    buildDowntimeStruct d client false = Ok req
    /\ datadogV1.CreateDowntime client req = (dt, httpresp, None)
    /\ schema.Id d' = Go.strconv.FormatInt (datadogV1.GetId dt)
    /\ (Go.minInt64 <= datadogV1.GetId dt <= Go.maxInt64 ->
        Go.strconv.ParseInt (schema.Id d') = Some (datadogV1.GetId dt)).
Proof.
  unfold resourceDatadogDowntimeCreate, schema.bind at 1, schema.get.
  destruct (build_create_ok d client) as [req Hbuild]. rewrite Hbuild.
  destruct (datadogV1.CreateDowntime client req) as [[dt httpresp] [e |]] eqn:Hcreate.
  - unfold schema.bind, schema.deref. destruct httpresp; discriminate.
  - intros Hrun. exists req, dt, httpresp.
    assert (Hid : schema.Id d' = Go.strconv.FormatInt (datadogV1.GetId dt)).
    { unfold schema.bind, schema.SetId in Hrun. simpl in Hrun.
      pose proof (updateDowntimeState_id dt
                    (withId (Go.strconv.FormatInt (datadogV1.GetId dt)) d)) as Hkeep.
      unfold withId in Hkeep.
      destruct (updateDowntimeState dt _) as [d1 r].
      simpl in Hkeep. injection Hrun as -> _. exact Hkeep. }
    repeat split; try assumption.
    intros Hrange. rewrite Hid. now apply ParseInt_FormatInt.
Qed.

(** A create that the remote answers with the downtime 9. *)
Lemma create_then_parse_witness :
  let d := resourceData "" [("scope", schema.VList ["host:web-1"])] in
  let created := remoteDowntime 9 None in
  let client := clientOf (created, Some ok200, None) (created, Some ok200, None) in
  let d' := (resourceDatadogDowntimeCreate client d).1 in
  schema.Id d' = "9" /\ Go.strconv.ParseInt (schema.Id d') = Some 9.
Proof.
  intros d created client d'.
  assert (Hrun : resourceDatadogDowntimeCreate client d = (d', Ok tt))
    by (vm_compute; reflexivity).
  destruct (create_then_parse client d d' Hrun)
    as (req & dt & httpresp & _ & Hcreate & Hid & Hparse).
  unfold client, clientOf in Hcreate. simpl in Hcreate. injection Hcreate as <- <-.
  split; [exact Hid |].
  apply Hparse. vm_compute. split; discriminate.
Defined.

(** Delete never changes the [ResourceData] (the identifier stays), and its
    outcome is that of the remote cancel: success when the call succeeds, the
    translated error when it fails with a response, a panic when it fails
    without one. *)
Theorem resourceDatadogDowntimeDelete_outcomes
    (client : datadogV1.APIClient) (d : schema.ResourceData) :
  (resourceDatadogDowntimeDelete client d).1 = d
  /\ forall id httpresp err,
       Go.strconv.ParseInt (schema.Id d) = Some id ->
       datadogV1.CancelDowntime client id = (httpresp, err) ->
       (resourceDatadogDowntimeDelete client d).2
       = match err, httpresp with
         | None, _ => Ok tt
         | Some e, Some r =>
             Err (TranslateClientError e (datadogV1.Host r) "error deleting downtime")
         | Some e, None => Panic nil_dereference
         end.
Proof.
  unfold resourceDatadogDowntimeDelete, schema.bind, schema.get, schema.fail,
    schema.ret, schema.deref, schema.panic.
  split.
  - destruct (Go.strconv.ParseInt (schema.Id d)) as [id |]; [| reflexivity].
    destruct (datadogV1.CancelDowntime client id) as [[r |] [e |]]; reflexivity.
  - intros id httpresp err -> ->.
    destruct err, httpresp; reflexivity.
Qed.

(** What read does with a fetch that succeeded, as a step of its own. *)
Lemma read_live (client : datadogV1.APIClient) (d : schema.ResourceData) (id : Z)
    (dt : datadogV1.Downtime) (httpresp : option datadogV1.Response) :
  Go.strconv.ParseInt (schema.Id d) = Some id ->
  datadogV1.GetDowntime client id = (dt, httpresp, None) ->
  datadogV1.Get (datadogV1.Canceled dt) = None ->
  resourceDatadogDowntimeRead client d = updateDowntimeState dt d.
Proof.
  intros Hid Hfetch Hlive.
  unfold resourceDatadogDowntimeRead, schema.bind, schema.get, datadogV1.GetCanceledOk.
  rewrite Hid, Hfetch, Hlive.
  destruct (datadogV1.IsSet (datadogV1.Canceled dt)); reflexivity.
Qed.

(** A fetched downtime whose [canceled] field is absent, or an explicit
    null, is not taken for canceled: read is the projection of that
    downtime, and the identifier stays. *)
Theorem resourceDatadogDowntimeRead_live
    (client : datadogV1.APIClient) (d : schema.ResourceData) (id : Z)
    (dt : datadogV1.Downtime) (httpresp : option datadogV1.Response) :
  Go.strconv.ParseInt (schema.Id d) = Some id ->
  datadogV1.GetDowntime client id = (dt, httpresp, None) ->
  datadogV1.Canceled dt = datadogV1.Unset \/ datadogV1.Canceled dt = datadogV1.Null ->
  resourceDatadogDowntimeRead client d = updateDowntimeState dt d
  /\ schema.Id (resourceDatadogDowntimeRead client d).1 = schema.Id d.
Proof.
  intros Hid Hfetch Hlive.
  assert (Hget : datadogV1.Get (datadogV1.Canceled dt) = None)
    by (destruct Hlive as [-> | ->]; reflexivity).
  rewrite (read_live client d id dt httpresp Hid Hfetch Hget).
  split; [reflexivity | apply updateDowntimeState_id].
Qed.

(** A downtime fetched with [canceled: null]. *)
Lemma resourceDatadogDowntimeRead_live_witness :
  let d := resourceData "5" [] in
  let dt :=
    datadogV1.mkDowntime (Some true) datadogV1.Null (Some false) datadogV1.Unset
      (Some 5) (Some "back at noon") datadogV1.Unset None datadogV1.Unset
      (Some ["host:web-1"]) (Some 1700000000) (Some "UTC") in
  let client := clientOf (dt, Some ok200, None) (dt, Some ok200, None) in
  resourceDatadogDowntimeRead client d = updateDowntimeState dt d
  /\ schema.Id (resourceDatadogDowntimeRead client d).1 = "5".
Proof.
  intros d dt client.
  exact (resourceDatadogDowntimeRead_live client d 5 dt (Some ok200) eq_refl eq_refl
           (or_intror eq_refl)).
Defined.

(** Import is read followed by the list of the one [ResourceData]: it
    succeeds exactly when read does, with the state read left; in
    particular, importing a downtime the remote answers 404 for succeeds,
    with a [ResourceData] whose identifier is empty. *)
Theorem resourceDatadogDowntimeImport_outcomes
    (client : datadogV1.APIClient) (d : schema.ResourceData) :
  (forall d' ds,
      resourceDatadogDowntimeImport client d = (d', Ok ds)
      <-> resourceDatadogDowntimeRead client d = (d', Ok tt) /\ ds = [d'])
  /\ (forall d' e,
        resourceDatadogDowntimeImport client d = (d', Err e)
        <-> resourceDatadogDowntimeRead client d = (d', Err e))
  /\ (forall id dt r e,
        Go.strconv.ParseInt (schema.Id d) = Some id ->
        datadogV1.GetDowntime client id = (dt, Some r, Some e) ->
        datadogV1.StatusCode r = 404 ->
        resourceDatadogDowntimeImport client d = (withId "" d, Ok [withId "" d])).
Proof.
  unfold resourceDatadogDowntimeImport, schema.bind, schema.get, schema.ret.
  split; [| split].
  - intros d' ds.
    destruct (resourceDatadogDowntimeRead client d) as [d1 [[] | e | why]]; simpl;
      split; try (intros H; discriminate H); try (intros [H _]; discriminate H).
    + intros H. injection H as <- <-. auto.
    + intros [H ->]. injection H as <-. reflexivity.
  - intros d' e.
    destruct (resourceDatadogDowntimeRead client d) as [d1 [[] | e1 | why]]; simpl;
      split; intros H; try discriminate H; injection H as <- <-; reflexivity.
  - intros id dt r e Hid Hfetch Hstatus.
    rewrite (read_not_found client d id Hid dt r e Hfetch Hstatus). reflexivity.
Qed.

(** Update fails without touching the [ResourceData] when the builder fails
    (the remote update is then not called: the outcome does not depend on
    it) and when the remote update fails with a response; it panics when the
    remote update fails without a response. *)
Theorem resourceDatadogDowntimeUpdate_failures
    (client : datadogV1.APIClient) (d : schema.ResourceData) :
  (forall e, buildDowntimeStruct d client true = Err e ->
     resourceDatadogDowntimeUpdate client d
     = (d, Err (Errorf "failed to parse resource configuration: " e)))
  /\ (forall req id updated httpresp e,
        buildDowntimeStruct d client true = Ok req ->
        Go.strconv.ParseInt (schema.Id d) = Some id ->
        datadogV1.UpdateDowntime client id (datadogV1.SetId id req)
        = (updated, httpresp, Some e) ->
        resourceDatadogDowntimeUpdate client d
        = (d, match httpresp with
              | Some r =>
                  Err (TranslateClientError e (datadogV1.Host r) "error updating downtime")
              | None => Panic nil_dereference
              end)).
Proof.
  split.
  - intros e Hbuild.
    unfold resourceDatadogDowntimeUpdate, schema.bind at 1, schema.get.
    now rewrite Hbuild.
  - intros req id updated httpresp e Hbuild Hid Hupdate.
    unfold resourceDatadogDowntimeUpdate, schema.bind at 1, schema.get.
    rewrite Hbuild, Hid, Hupdate.
    destruct httpresp; reflexivity.
Qed.

(* ===================================================================== *)
(** ** The functions of the schema *)
(* ===================================================================== *)

Lemma strip_prefix_spec (w l r : list ascii) :
  Go.strings.strip_prefix w l = Some r <-> l = (w ++ r)%list.
Proof.
  revert l. induction w as [| a w IH]; intros l; simpl.
  - split; [intros [= ->]; reflexivity | intros ->; reflexivity].
  - destruct l as [| b l]; [split; discriminate |].
    destruct (Ascii.eqb_spec a b) as [-> | Hne].
    + rewrite IH. split; [intros ->; reflexivity | intros [= ->]; reflexivity].
    + split; [discriminate | intros [= Hab _]; congruence].
Qed.

Lemma first_of_Some {A B} (f : A -> option B) (xs : list A) (b : B) :
  Go.strings.first_of f xs = Some b -> exists x, x ∈ xs /\ f x = Some b.
Proof.
  induction xs as [| x xs IH]; simpl; [discriminate |].
  destruct (f x) as [b' |] eqn:Hx.
  - intros [= ->]. exists x. split; [left | exact Hx].
  - intros H. destruct (IH H) as (y & Hy & Hfy). exists y. split; [now right | exact Hfy].
Qed.

Lemma first_of_None {A B} (f : A -> option B) (xs : list A) (x : A) :
  Go.strings.first_of f xs = None -> x ∈ xs -> f x = None.
Proof.
  induction xs as [| y xs IH]; simpl; intros H Hin.
  - inversion Hin.
  - destruct (f y) eqn:Hy; [discriminate |].
    apply elem_of_cons in Hin as [-> | Hin]; [exact Hy | now apply IH].
Qed.

Lemma white_space_not_empty (w : list ascii) : w ∈ Go.strings.white_space -> w ≠ [].
Proof.
  intros Hin ->. revert Hin.
  unfold Go.strings.white_space. simpl. rewrite !elem_of_cons, elem_of_nil.
  intuition discriminate.
Qed.

Lemma leading_space_Some (l r : list ascii) :
  Go.strings.leading_space l = Some r ->
  exists w, w ∈ Go.strings.white_space /\ l = (w ++ r)%list.
Proof.
  intros H. apply first_of_Some in H as (w & Hw & H).
  exists w. split; [exact Hw | now apply strip_prefix_spec].
Qed.

Lemma trailing_space_Some (l r : list ascii) :
  Go.strings.trailing_space l = Some r ->
  exists w, w ∈ Go.strings.white_space /\ l = (r ++ w)%list.
Proof.
  unfold Go.strings.trailing_space. intros H.
  apply fmap_Some in H as (r' & H & ->).
  apply first_of_Some in H as (w & Hw & H).
  exists w. split; [exact Hw |].
  apply strip_prefix_spec in H.
  apply (f_equal reverse) in H. rewrite reverse_involutive, reverse_app in H.
  now rewrite reverse_involutive in H.
Qed.

Lemma leading_space_shorter (l r : list ascii) :
  Go.strings.leading_space l = Some r -> (length r < length l)%nat.
Proof.
  intros H. apply leading_space_Some in H as (w & Hw & ->).
  apply white_space_not_empty in Hw. rewrite length_app.
  destruct w; [contradiction | simpl; lia].
Qed.

Lemma trailing_space_shorter (l r : list ascii) :
  Go.strings.trailing_space l = Some r -> (length r < length l)%nat.
Proof.
  intros H. apply trailing_space_Some in H as (w & Hw & ->).
  apply white_space_not_empty in Hw. rewrite length_app.
  destruct w; [contradiction | simpl; lia].
Qed.

(** A string that starts with white space still does when bytes are added
    at its end. *)
Lemma leading_space_app (l x : list ascii) :
  Go.strings.leading_space (l ++ x) = None -> Go.strings.leading_space l = None.
Proof.
  intros H. destruct (Go.strings.leading_space l) as [r |] eqn:Hl; [| reflexivity].
  apply leading_space_Some in Hl as (w & Hw & ->).
  pose proof (first_of_None _ _ w H Hw) as Hnone. simpl in Hnone.
  assert (Hsome : Go.strings.strip_prefix w ((w ++ r) ++ x) = Some (r ++ x)%list)
    by (apply strip_prefix_spec; now rewrite app_assoc).
  congruence.
Qed.

(** The length of the string is enough fuel: nothing is left to trim. *)
Lemma trim_left_clean (n : nat) (l : list ascii) :
  (length l <= n)%nat -> Go.strings.leading_space (Go.strings.trim_left n l) = None.
Proof.
  revert l. induction n as [| n IH]; intros l Hn; simpl.
  - destruct l; [reflexivity | simpl in Hn; lia].
  - destruct (Go.strings.leading_space l) as [r |] eqn:Hl; [| exact Hl].
    apply IH. apply leading_space_shorter in Hl. lia.
Qed.

Lemma trim_right_clean (n : nat) (l : list ascii) :
  (length l <= n)%nat -> Go.strings.trailing_space (Go.strings.trim_right n l) = None.
Proof.
  revert l. induction n as [| n IH]; intros l Hn; simpl.
  - destruct l; [reflexivity | simpl in Hn; lia].
  - destruct (Go.strings.trailing_space l) as [r |] eqn:Hl; [| exact Hl].
    apply IH. apply trailing_space_shorter in Hl. lia.
Qed.

Lemma trim_left_fixed (n : nat) (l : list ascii) :
  Go.strings.leading_space l = None -> Go.strings.trim_left n l = l.
Proof. intros H. destruct n; simpl; [reflexivity | now rewrite H]. Qed.

Lemma trim_right_fixed (n : nat) (l : list ascii) :
  Go.strings.trailing_space l = None -> Go.strings.trim_right n l = l.
Proof. intros H. destruct n; simpl; [reflexivity | now rewrite H]. Qed.

Lemma trim_right_prefix (n : nat) (l : list ascii) :
  exists x, l = (Go.strings.trim_right n l ++ x)%list.
Proof.
  revert l. induction n as [| n IH]; intros l; simpl.
  - exists []. now rewrite app_nil_r.
  - destruct (Go.strings.trailing_space l) as [r |] eqn:Hl.
    + apply trailing_space_Some in Hl as (w & _ & ->).
      destruct (IH r) as (x & Hx). exists (x ++ w)%list.
      rewrite app_assoc. now rewrite <- Hx.
    + exists []. now rewrite app_nil_r.
Qed.

Lemma TrimSpace_idempotent (s : string) :
  Go.strings.TrimSpace (Go.strings.TrimSpace s) = Go.strings.TrimSpace s.
Proof.
  unfold Go.strings.TrimSpace.
  set (u := Go.strings.trim_left _ (list_ascii_of_string s)).
  set (v := Go.strings.trim_right (length u) u).
  cbv zeta. rewrite list_ascii_of_string_of_list_ascii.
  assert (Hu : Go.strings.leading_space u = None) by (apply trim_left_clean; lia).
  assert (Hv : Go.strings.trailing_space v = None) by (apply trim_right_clean; lia).
  assert (Hv' : Go.strings.leading_space v = None).
  { destruct (trim_right_prefix (length u) u) as (x & Hx). fold v in Hx.
    apply (leading_space_app v x). now rewrite <- Hx. }
  rewrite (trim_left_fixed _ v Hv'). now rewrite (trim_right_fixed _ v Hv).
Qed.

(** The [StateFunc] of [message] is idempotent: what the state stores for a
    message is a fixed point of it.  And the message of a built request is
    that stored form of the configured message, so the request and the state
    agree on it. *)
Theorem messageStateFunc_stable :
  (forall val : schema.value,
      messageStateFunc (schema.VString (messageStateFunc val)) = messageStateFunc val)
  /\ (forall d client updating req,
        buildDowntimeStruct d client updating = Ok req ->
        datadogV1.Message req = messageStateFunc <$> schema.GetOk d "message"
        /\ messageStateFunc (schema.VString (datadogV1.GetMessage req))
           = datadogV1.GetMessage req).
Proof.
  split.
  - intros val. unfold messageStateFunc. cbn [schema.as_string].
    apply TrimSpace_idempotent.
  - intros d client updating req Hbuild.
    destruct (buildDowntimeStruct_fields d client updating req Hbuild) as (Hmessage & _).
    split; [exact Hmessage |].
    unfold datadogV1.GetMessage, messageStateFunc. rewrite Hmessage.
    destruct (schema.GetOk d "message"); cbn [fmap option_fmap option_map default];
      [apply TrimSpace_idempotent | reflexivity].
Qed.

(** The difference on [start] is suppressed whenever [start_date] is set.
    Without [start_date], it is suppressed only when the new value is ["0"]
    (the attribute was dropped from the configuration), the old one is not,
    and the stored start is not in the future; so a suppression, once it
    holds, holds at every later time, and a new start other than ["0"] is
    never suppressed.  The difference on [end] is suppressed exactly when
    [end_date] is set. *)
Theorem diffSuppressFunc_properties
    (k oldVal newVal : string) (d : schema.ResourceData) (now : Z) :
  (schema.GetOk d "start_date" ≠ None ->
   startDiffSuppressFunc now k oldVal newVal d = true)
  /\ (schema.GetOk d "start_date" = None ->
      (startDiffSuppressFunc now k oldVal newVal d = true
       <-> newVal = "0" /\ oldVal ≠ "0" /\ schema.as_int (schema.Get d "start") <= now))
  /\ (forall later, now <= later ->
        startDiffSuppressFunc now k oldVal newVal d = true ->
        startDiffSuppressFunc later k oldVal newVal d = true)
  /\ (endDiffSuppressFunc k oldVal newVal d = true <-> schema.GetOk d "end_date" ≠ None).
Proof.
  unfold startDiffSuppressFunc, endDiffSuppressFunc.
  split; [| split; [| split]].
  - destruct (schema.GetOk d "start_date"); [reflexivity | congruence].
  - intros ->. simpl.
    destruct (String.eqb_spec newVal "0"), (String.eqb_spec oldVal "0"),
      (Z.leb_spec (schema.as_int (schema.Get d "start")) now); simpl;
      intuition (try discriminate; try congruence; try lia).
  - intros later Hlater.
    destruct (schema.GetOk d "start_date"); [reflexivity |]. simpl.
    destruct (String.eqb newVal "0"), (negb (String.eqb oldVal "0")); simpl; try discriminate.
    intros H. apply Z.leb_le in H. apply Z.leb_le. lia.
  - destruct (schema.GetOk d "end_date"); split; congruence.
Qed.

(** A start that is dropped from the configuration: the difference shows
    while the stored start is in the future and is suppressed from the
    moment it is reached. *)
Lemma diffSuppressFunc_properties_witness :
  let d := resourceData "5" [("start", schema.VInt 1700000000)] in
  startDiffSuppressFunc 1699999999 "start" "1700000000" "0" d = false
  /\ startDiffSuppressFunc 1700000000 "start" "1700000000" "0" d = true
  /\ startDiffSuppressFunc 1700000500 "start" "1700000000" "0" d = true.
Proof.
  intros d.
  destruct (diffSuppressFunc_properties "start" "1700000000" "0" d 1700000000)
    as (_ & Hiff & Hlater & _).
  assert (Hnow : startDiffSuppressFunc 1700000000 "start" "1700000000" "0" d = true).
  { apply (Hiff eq_refl). repeat split; [discriminate | vm_compute; discriminate]. }
  split; [reflexivity |]. split; [exact Hnow |].
  apply Hlater; [lia | exact Hnow].
Defined.

(* ===================================================================== *)
(** ** More on the validation of a configuration *)
(* ===================================================================== *)

Lemma Get_top_level (c : list (string * validation.Config)) (k : string) :
  validation.Split k = [k] -> k ≠ "" ->
  validation.Get c k = validation.assoc k c.
Proof.
  intros Hsplit Hk. unfold validation.Get. rewrite Hsplit.
  destruct k as [| a k]; [contradiction |]. simpl.
  destruct (validation.assoc (String a k) c); reflexivity.
Qed.

(** The structure the schema asks of a configuration: [scope] is required;
    [active] and [disabled] are computed and cannot be set; there is at most
    one [recurrence] block, and a block has a [type]. *)
Theorem schema_structure_enforced (c : list (string * validation.Config)) :
  (validation.assoc "scope" c = None -> validation.rejected c)
  /\ (forall v, validation.assoc "active" c = Some v -> validation.rejected c)
  /\ (forall v, validation.assoc "disabled" c = Some v -> validation.rejected c)
  /\ (forall b1 b2 bs,
        validation.assoc "recurrence" c = Some (validation.CList (b1 :: b2 :: bs)) ->
        validation.rejected c)
  /\ (forall m,
        validation.assoc "recurrence" c = Some (validation.CList [validation.CMap m]) ->
        validation.assoc "type" m = None ->
        validation.rejected c).
Proof.
  unfold validation.rejected, validation.resourceDatadogDowntime.
  split; [| split; [| split; [| split]]].
  - intros Hscope.
    apply (Validate_error c _ "scope"
             (validation.withElem (validation.ElemSchema (validation.ofType validation.TypeString))
                (validation.withRequired (validation.ofType validation.TypeList))));
      [simpl; tauto |].
    simpl. rewrite (Get_top_level c "scope") by (reflexivity || discriminate).
    rewrite Hscope. discriminate.
  - intros v Hactive.
    apply (Validate_error c _ "active"
             (validation.withComputed (validation.ofType validation.TypeBool)));
      [simpl; tauto |].
    simpl. rewrite (Get_top_level c "active") by (reflexivity || discriminate).
    rewrite Hactive. discriminate.
  - intros v Hdisabled.
    apply (Validate_error c _ "disabled"
             (validation.withComputed (validation.ofType validation.TypeBool)));
      [simpl; tauto |].
    simpl. rewrite (Get_top_level c "disabled") by (reflexivity || discriminate).
    rewrite Hdisabled. discriminate.
  - intros b1 b2 bs Hblocks.
    apply (Validate_error c _ "recurrence"
             (validation.withElem (validation.ElemResource validation.recurrenceSchema)
                (validation.withMaxItems 1
                   (validation.withOptional (validation.ofType validation.TypeList)))));
      [simpl; tauto |].
    simpl. rewrite (Get_top_level c "recurrence") by (reflexivity || discriminate).
    rewrite Hblocks. discriminate.
  - intros m Hblock Htype.
    apply (Validate_error c _ "recurrence"
             (validation.withElem (validation.ElemResource validation.recurrenceSchema)
                (validation.withMaxItems 1
                   (validation.withOptional (validation.ofType validation.TypeList)))));
      [simpl; tauto |].
    assert (Hget : validation.Get c "recurrence.0.type" = None).
    { unfold validation.Get. simpl. rewrite Hblock. simpl. now rewrite Htype. }
    simpl. rewrite (Get_top_level c "recurrence") by (reflexivity || discriminate).
    rewrite Hblock. simpl.
    change (("recurrence" +:+ "." +:+ Go.strconv.FormatInt (Z.of_nat 0)) +:+ "." +:+ "type")
      with "recurrence.0.type".
    rewrite Hget.
    intros Hnil. apply app_eq_nil in Hnil as [Hnil _].
    apply app_eq_nil in Hnil as [_ Hnil]. discriminate Hnil.
Qed.

(** The two lists of a request.  [scope] is sent as the configuration has
    it, in order and with its repetitions.  [monitor_tags] is sent as a set:
    each configured tag once, and two configurations whose tags differ only
    in order or repetition get the same list. *)
Theorem buildDowntimeStruct_lists
    (d : schema.ResourceData) (client : datadogV1.APIClient) (updating : bool)
    (req : datadogV1.Downtime) :
  buildDowntimeStruct d client updating = Ok req ->
  datadogV1.GetScope req = schema.as_list (schema.Get d "scope")
  /\ NoDup (datadogV1.GetMonitorTags req)
  /\ (forall tag : string,
        tag ∈ datadogV1.GetMonitorTags req
        <-> tag ∈ schema.as_set (schema.Get d "monitor_tags"))
  /\ (forall d2 client2 updating2 req2,
        buildDowntimeStruct d2 client2 updating2 = Ok req2 ->
        schema.as_set (schema.Get d "monitor_tags")
        = schema.as_set (schema.Get d2 "monitor_tags") ->
        datadogV1.GetMonitorTags req = datadogV1.GetMonitorTags req2).
Proof.
  intros Hbuild.
  destruct (buildDowntimeStruct_fields d client updating req Hbuild)
    as (_ & _ & Hscope & Htags & _).
  unfold datadogV1.GetScope, datadogV1.GetMonitorTags. rewrite Hscope, Htags. simpl.
  split; [reflexivity |]. unfold schema.List_.
  split; [apply NoDup_elements |].
  split; [intros tag; apply elem_of_elements |].
  intros d2 client2 updating2 req2 Hbuild2 Hsame.
  destruct (buildDowntimeStruct_fields d2 client2 updating2 req2 Hbuild2)
    as (_ & _ & _ & Htags2 & _).
  rewrite Htags2. simpl. now rewrite Hsame.
Qed.

(** The same two tags, written in two ways. *)
Lemma buildDowntimeStruct_lists_witness :
  let d1 := resourceData "" [("scope", schema.VList ["env:prod"; "host:web-1"; "env:prod"]);
                             ("monitor_tags", schema.VList ["tier:1"; "team:web"; "tier:1"])] in
  let d2 := resourceData "" [("scope", schema.VList ["host:web-1"]);
                             ("monitor_tags", schema.VList ["team:web"; "tier:1"])] in
  let client := clientOf (datadogV1.zeroDowntime, None, None)
                  (datadogV1.zeroDowntime, None, None) in
  let built d := match buildDowntimeStruct d client false with
                 | Ok r => r
                 | _ => datadogV1.zeroDowntime
                 end in
  datadogV1.GetScope (built d1) = ["env:prod"; "host:web-1"; "env:prod"]
  /\ datadogV1.GetMonitorTags (built d1) = datadogV1.GetMonitorTags (built d2).
Proof.
  intros d1 d2 client built.
  destruct (buildDowntimeStruct_lists d1 client false (built d1) eq_refl)
    as (Hscope & _ & _ & Hsame).
  split; [exact Hscope |].
  apply (Hsame d2 client false (built d2) eq_refl).
  vm_compute. reflexivity.
Defined.
